(** * MCP Generator front end: a shallow embedding and its checked properties

    The development follows the TypeScript sources of the front end:

    - [components/mcp-generator.tsx]  (module [Generator])
    - [components/mcp-config.tsx]     (module [ConfigForm])
    - [components/mcp-tester]         (module [Tester])
    - [lib/store]                     (module [Store])
    - [lib/api]                       (module [Api])
    - the home page with its tabs     (module [App])

    JavaScript strings are sequences of code units; here they are Rocq
    strings, one [ascii] per code unit (the code units below 256).  Values
    produced by [JSON.parse] are modelled by the type [JS.value]; an object is
    the list of its own properties in the order [Object.entries] enumerates
    them.  Calls that leave the program ([JSON.parse], [fetch], the
    [/generate] end point) are arguments of the functions that use them. *)

From Stdlib Require Import List String Ascii Bool Arith ZArith NArith Lia.
From Stdlib Require Import Floats.SpecFloat.
From Stdlib Require Import Numbers.DecimalString.
Import ListNotations.
Local Open Scope string_scope.
Set Warnings "-register-all".

(* ------------------------------------------------------------------ *)
(** ** JavaScript values and the built-ins the sources use             *)
(* ------------------------------------------------------------------ *)

Module JS.

(** Abrupt completions: the sources only ever catch, never inspect. *)
Inductive error : Type :=
| TypeError
| SyntaxError.

Inductive completion (A : Type) : Type :=
| Normal (a : A)
| Throw (e : error).

Arguments Normal {A} a.
Arguments Throw {A} e.

Definition bind {A B : Type} (c : completion A) (k : A -> completion B)
  : completion B :=
  match c with
  | Normal a => k a
  | Throw e => Throw e
  end.

Notation "x <- c ;; k" := (bind c (fun x => k))
  (at level 61, c at next level, right associativity).

(** What [JSON.parse] can return, plus [undefined] (the result of reading a
    property that is not there).  A number is an IEEE double. *)
Inductive value : Type :=
| Undefined
| Null
| Bool (b : bool)
| Number (x : spec_float)
| Str (s : string)
| Array (elems : list value)
| Object (props : list (string * value)).

(** [ToBoolean]: what [||], [!] and [if] look at. *)
Definition truthy (v : value) : bool :=
  match v with
  | Undefined | Null => false
  | Bool b => b
  | Number (S754_zero _) | Number S754_nan => false
  | Number _ => true
  | Str s => negb (s =? "")
  | Array _ | Object _ => true
  end.

(** [a || b], both operands already evaluated ([b] has no effect in the
    sources, so evaluating it early changes nothing). *)
Definition or (a b : value) : value := if truthy a then a else b.

Fixpoint assoc (k : string) (props : list (string * value)) : option value :=
  match props with
  | [] => None
  | (k', v) :: rest => if k' =? k then Some v else assoc k rest
  end.

(** [v.k] for the property names the sources read ([paths], [operationId],
    [description], [summary], [mcpServers], [url]): none of them is an index,
    [length], or a property of a built-in prototype, so on anything but an
    object with that own property the read gives [undefined]; on [null] and
    [undefined] it throws. *)
Definition get (v : value) (k : string) : completion value :=
  match v with
  | Undefined | Null => Throw TypeError
  | Object props =>
      Normal (match assoc k props with Some x => x | None => Undefined end)
  | _ => Normal Undefined
  end.

Definition index_key (i : nat) : string :=
  NilEmpty.string_of_uint (Nat.to_uint i).

Fixpoint indexed {A : Type} (i : nat) (l : list A) : list (string * A) :=
  match l with
  | [] => []
  | x :: rest => (index_key i, x) :: indexed (S i) rest
  end.

Fixpoint chars (s : string) : list value :=
  match s with
  | EmptyString => []
  | String c rest => Str (String c EmptyString) :: chars rest
  end.

(** [Object.entries(v)]. *)
Definition entries (v : value) : completion (list (string * value)) :=
  match v with
  | Undefined | Null => Throw TypeError
  | Bool _ | Number _ => Normal []
  | Str s => Normal (indexed 0 (chars s))
  | Array elems => Normal (indexed 0 elems)
  | Object props => Normal props
  end.

(** *** Strings *)

Definition code (c : ascii) : N := N_of_ascii c.

Definition between (lo hi : N) (c : ascii) : bool :=
  ((lo <=? code c) && (code c <=? hi))%N.

Definition isDigit (c : ascii) : bool := between 48 57 c.
Definition isUpper (c : ascii) : bool := between 65 90 c.
Definition isLower (c : ascii) : bool := between 97 122 c.

(** The class [[a-zA-Z0-9]]. *)
Definition isAlnum (c : ascii) : bool := isLower c || isUpper c || isDigit c.

(** White space and line terminators among the code units below 256:
    TAB, LF, VT, FF, CR, SP and NBSP. *)
Definition isWhiteSpace (c : ascii) : bool :=
  between 9 13 c || (code c =? 32)%N || (code c =? 160)%N.

Fixpoint trimStart (s : string) : string :=
  match s with
  | EmptyString => EmptyString
  | String c rest => if isWhiteSpace c then trimStart rest else s
  end.

Fixpoint trimEnd (s : string) : string :=
  match s with
  | EmptyString => EmptyString
  | String c rest =>
      match trimEnd rest with
      | EmptyString => if isWhiteSpace c then EmptyString
                       else String c EmptyString
      | t => String c t
      end
  end.

(** [s.trim()]. *)
Definition trim (s : string) : string := trimEnd (trimStart s).

Fixpoint map_chars (f : ascii -> ascii) (s : string) : string :=
  match s with
  | EmptyString => EmptyString
  | String c rest => String (f c) (map_chars f rest)
  end.

(** Upper-casing of one ASCII code unit: [a]..[z] go to [A]..[Z]. *)
Definition upper_char (c : ascii) : ascii :=
  if isLower c then ascii_of_N (code c - 32) else c.

(** What [toUpperCase] puts in the place of one code unit below 256:
    [a]..[z], U+00E0..U+00F6 and U+00F8..U+00FE lose 32, U+00DF (sharp s)
    becomes [SS], and the rest has no upper-case form and is kept.  Two
    units have an upper-case form that is not a code unit below 256, U+00B5
    (to U+039C) and U+00FF (to U+0178); strings of this development cannot
    hold those, the unit is kept here, and the statements about upper-cased
    text are made for ASCII text. *)
Definition upper_unit (c : ascii) : string :=
  if isLower c then String (ascii_of_N (code c - 32)) EmptyString
  else if (code c =? 223)%N then "SS"
  else if between 224 246 c || between 248 254 c
       then String (ascii_of_N (code c - 32)) EmptyString
  else String c EmptyString.

(** [s.toUpperCase()]. *)
Fixpoint toUpperCase (s : string) : string :=
  match s with
  | EmptyString => EmptyString
  | String c rest => upper_unit c ++ toUpperCase rest
  end.

(** Code units below 128. *)
Definition isAscii (c : ascii) : bool := (code c <? 128)%N.

Fixpoint ascii_text (s : string) : bool :=
  match s with
  | EmptyString => true
  | String c rest => isAscii c && ascii_text rest
  end.

(** [s.replace(/[^a-zA-Z0-9]/g, '_')]: the pattern has no [u] flag, so it
    is matched code unit by code unit. *)
Definition replace_non_alnum (s : string) : string :=
  map_chars (fun c => if isAlnum c then c else "_"%char) s.

(** [s || alt] for a [s] that is statically a string. *)
Definition str_or (s : string) (alt : option string) : option string :=
  if s =? "" then alt else Some s.

End JS.

Import JS.

(* ------------------------------------------------------------------ *)
(** ** lib/store                                                       *)
(* ------------------------------------------------------------------ *)

Module Store.

Inductive protocol : Type := stdio | http | sse.

Definition protocol_eqb (p q : protocol) : bool :=
  match p, q with
  | stdio, stdio | http, http | sse, sse => true
  | _, _ => false
  end.

Record MCPConfig : Type := {
  openaiApiKey : string;
  mcpName : string;
  protocolTypes : list protocol;
  description : string;
  version : string;
  author : string;
  baseUrl : string
}.

Definition defaultConfig : MCPConfig := {|
  openaiApiKey := "";
  mcpName := "Generated MCP Server";
  protocolTypes := [stdio];
  description := "MCP Server generated from API specification";
  version := "1.0.0";
  author := "";
  baseUrl := ""
|}.

(** [Partial<MCPConfig>]: a field is either given or left out. *)
Record PartialMCPConfig : Type := {
  openaiApiKey' : option string;
  mcpName' : option string;
  protocolTypes' : option (list protocol);
  description' : option string;
  version' : option string;
  author' : option string;
  baseUrl' : option string
}.

(** A whole configuration passed where a partial one is expected. *)
Definition whole (c : MCPConfig) : PartialMCPConfig := {|
  openaiApiKey' := Some (openaiApiKey c);
  mcpName' := Some (mcpName c);
  protocolTypes' := Some (protocolTypes c);
  description' := Some (description c);
  version' := Some (version c);
  author' := Some (author c);
  baseUrl' := Some (baseUrl c)
|}.

Definition spread1 {A : Type} (old : A) (upd : option A) : A :=
  match upd with
  | Some a => a
  | None => old
  end.

(** [{ ...c, ...updates }]. *)
Definition spread (c : MCPConfig) (updates : PartialMCPConfig) : MCPConfig := {|
  openaiApiKey := spread1 (openaiApiKey c) (openaiApiKey' updates);
  mcpName := spread1 (mcpName c) (mcpName' updates);
  protocolTypes := spread1 (protocolTypes c) (protocolTypes' updates);
  description := spread1 (description c) (description' updates);
  version := spread1 (version c) (version' updates);
  author := spread1 (author c) (author' updates);
  baseUrl := spread1 (baseUrl c) (baseUrl' updates)
|}.

Record TestResponse : Type := { result : value }.

(** The data fields of [AppState]; the actions are the functions below. *)
Record AppState : Type := {
  isGenerating : bool;
  isTesting : bool;
  generationResult : option string;
  testResult : option TestResponse;
  config : MCPConfig
}.

Definition initialState : AppState := {|
  isGenerating := false;
  isTesting := false;
  generationResult := None;
  testResult := None;
  config := defaultConfig
|}.

Definition setGenerating (generating : bool) (s : AppState) : AppState :=
  {| isGenerating := generating; isTesting := isTesting s;
     generationResult := generationResult s; testResult := testResult s;
     config := config s |}.

Definition setTesting (testing : bool) (s : AppState) : AppState :=
  {| isGenerating := isGenerating s; isTesting := testing;
     generationResult := generationResult s; testResult := testResult s;
     config := config s |}.

Definition setGenerationResult (r : option string) (s : AppState) : AppState :=
  {| isGenerating := isGenerating s; isTesting := isTesting s;
     generationResult := r; testResult := testResult s;
     config := config s |}.

Definition setTestResult (r : option TestResponse) (s : AppState) : AppState :=
  {| isGenerating := isGenerating s; isTesting := isTesting s;
     generationResult := generationResult s; testResult := r;
     config := config s |}.

Definition setConfig (c : MCPConfig) (s : AppState) : AppState :=
  {| isGenerating := isGenerating s; isTesting := isTesting s;
     generationResult := generationResult s; testResult := testResult s;
     config := c |}.

Definition updateConfig (updates : PartialMCPConfig) (s : AppState) : AppState :=
  {| isGenerating := isGenerating s; isTesting := isTesting s;
     generationResult := generationResult s; testResult := testResult s;
     config := spread (config s) updates |}.

(** What [partialize] may return: any subset of the data fields. *)
Record PartialAppState : Type := {
  isGenerating' : option bool;
  isTesting' : option bool;
  generationResult' : option (option string);
  testResult' : option (option TestResponse);
  config' : option MCPConfig
}.

(** The [partialize] option of [persist]: the object written to the
    [mcp-generator-storage] entry of local storage. *)
Definition partialize (state : AppState) : PartialAppState := {|
  isGenerating' := None;
  isTesting' := None;
  generationResult' := None;
  testResult' := None;
  config' := Some (config state)
|}.

Definition storage_name : string := "mcp-generator-storage".

(** Loading the page: the store is created from its initial state and the
    persist middleware lays the stored object over it (its default shallow
    merge, [{ ...current, ...persisted }]). *)
Definition rehydrate (persisted : PartialAppState) : AppState := {|
  isGenerating := spread1 (isGenerating initialState) (isGenerating' persisted);
  isTesting := spread1 (isTesting initialState) (isTesting' persisted);
  generationResult :=
    spread1 (generationResult initialState) (generationResult' persisted);
  testResult := spread1 (testResult initialState) (testResult' persisted);
  config := spread1 (config initialState) (config' persisted)
|}.

End Store.

(* ------------------------------------------------------------------ *)
(** ** lib/api                                                         *)
(* ------------------------------------------------------------------ *)

Module Api.

Record RequestConfig : Type := {
  openai_api_key : string;
  mcp_name : string;
  protocol_types : list Store.protocol;
  description : string;
  version : string;
  author : string
}.

Record GenerateRequest : Type := {
  api_spec : string;
  system_prompt : string;
  base_url : option string;
  selected_tools : option (list string);
  config : RequestConfig
}.

Record GenerateResponse : Type := { zip_data : string }.

Record TestRequest : Type := {
  mcp_config : value;
  prompt : string
}.

(** How an awaited promise settles; a rejection carries [error.message]. *)
Inductive settled (A : Type) : Type :=
| Fulfilled (a : A)
| Rejected (message : string).

Arguments Fulfilled {A} a.
Arguments Rejected {A} message.

(** *** [parseInt] *)

Definition digit_value (c : ascii) : option N :=
  if isDigit c then Some (code c - 48)%N
  else if isLower c then Some (code c - 87)%N
  else if isUpper c then Some (code c - 55)%N
  else None.

Definition radix_digit (R : N) (c : ascii) : option N :=
  match digit_value c with
  | Some d => if (d <? R)%N then Some d else None
  | None => None
  end.

(** The value of the longest prefix of radix-[R] digits; [acc] is the value
    read so far, [None] while no digit has been read. *)
Fixpoint parse_digits (R : N) (s : string) (acc : option N) : option N :=
  match s with
  | EmptyString => acc
  | String c rest =>
      match radix_digit R c with
      | Some d =>
          parse_digits R rest
            (Some (match acc with Some a => a * R + d | None => d end)%N)
      | None => acc
      end
  end.

Definition strip_sign (s : string) : Z * string :=
  match s with
  | String "-"%char rest => ((-1)%Z, rest)
  | String "+"%char rest => (1%Z, rest)
  | _ => (1%Z, s)
  end.

Definition strip_0x (s : string) : option string :=
  match s with
  | String "0"%char (String "x"%char rest) => Some rest
  | String "0"%char (String "X"%char rest) => Some rest
  | _ => None
  end.

(** [parseInt(s, radix)]; [None] is [NaN].  Exact as long as the result is
    below 2^53; [-0] is identified with [0]. *)
Definition parseInt (s : string) (radix : N) : option Z :=
  let '(sign, s1) := strip_sign (trimStart s) in
  if (negb (radix =? 0) && ((radix <? 2) || (36 <? radix)))%N then None
  else
    let stripPrefix := ((radix =? 0) || (radix =? 16))%N in
    let R0 := if (radix =? 0)%N then 10%N else radix in
    let '(R, s2) :=
      match (if stripPrefix then strip_0x s1 else None) with
      | Some rest => (16%N, rest)
      | None => (R0, s1)
      end in
    match parse_digits R s2 None with
    | Some n => Some (sign * Z.of_N n)%Z
    | None => None
    end.

(** Storing a number into a [Uint8Array] element. *)
Definition ToUint8 (x : option Z) : Z :=
  match x with
  | Some z => (z mod 256)%Z
  | None => 0%Z
  end.

(** [bytes[k] = v] on a typed array: a write past the end is dropped. *)
Fixpoint store (k : nat) (v : Z) (bytes : list Z) : list Z :=
  match bytes, k with
  | [], _ => []
  | _ :: rest, O => v :: rest
  | b :: rest, S k' => b :: store k' v rest
  end.

(** [s.substr(i, 2)]. *)
Definition substr2 (i : nat) (s : string) : string := substring i 2 s.

(** The values [i] takes in [for (let i = 0; i < n; i += 2)]. *)
Definition loop_indices (n : nat) : list nat :=
  map (fun k => 2 * k) (seq 0 (Nat.div2 (S n))).

Definition hex_bytes (zipData : string) : list Z :=
  fold_left
    (fun bytes i => store (Nat.div2 i) (ToUint8 (parseInt (substr2 i zipData) 16)) bytes)
    (loop_indices (String.length zipData))
    (repeat 0%Z (Nat.div2 (String.length zipData))).

Record Blob : Type := {
  blobParts : list Z;
  type : string
}.

(** What the click on the temporary anchor hands to the browser. *)
Record Download : Type := {
  href : Blob;
  download : string
}.

Definition downloadZip (zipData : string) (filename : string) : Download :=
  let bytes := hex_bytes zipData in
  let blob := {| blobParts := bytes; type := "application/zip" |} in
  {| href := blob; download := filename |}.

Definition default_filename : string := "mcp_project.zip".

End Api.

(* ------------------------------------------------------------------ *)
(** ** What the components do to the outside                           *)
(* ------------------------------------------------------------------ *)

Inductive effect : Type :=
| Alert (message : string)
| ConsoleError (message : string)
| GenerateMCP (request : Api.GenerateRequest)
| DownloadZip (zipData : string).

(* ------------------------------------------------------------------ *)
(** ** components/mcp-generator.tsx                                    *)
(* ------------------------------------------------------------------ *)

Module Generator.

Record ParsedTool : Type := {
  id : string;
  name : value;
  description : value;
  method : string;
  path : string;
  selected : bool
}.

(** The component's own state (the [useState] cells). *)
Record State : Type := {
  apiSpec : string;
  systemPrompt : string;
  baseUrl : string;
  parsedTools : list ParsedTool;
  showToolSelection : bool
}.

Definition initial : State := {|
  apiSpec := "";
  systemPrompt := "";
  baseUrl := "";
  parsedTools := [];
  showToolSelection := false
|}.

(** [const operationId = op.operationId || `${method}_${slug}`]. *)
Definition operationId (path method : string) (op : value) : completion value :=
  declared <- get op "operationId" ;;
  Normal (or declared (Str (method ++ "_" ++ replace_non_alnum path))).

(** [const description = op.description || op.summary || `${METHOD} ${path}`]. *)
Definition description_of (path method : string) (op : value) : completion value :=
  d <- get op "description" ;;
  s <- get op "summary" ;;
  Normal (or d (or s (Str (toUpperCase method ++ " " ++ path)))).

(** The body of the inner [forEach] callback: the tool that is pushed. *)
Definition tool_of (path method : string) (operation : value)
  : completion ParsedTool :=
  name_ <- operationId path method operation ;;
  description_ <- description_of path method operation ;;
  Normal {| id := method ++ "_" ++ path;
            name := name_;
            description := description_;
            method := toUpperCase method;
            path := path;
            selected := true |}.

(** [Object.entries(methods).forEach(...)], pushing onto [tools]. *)
Fixpoint forEach_method (path : string) (ms : list (string * value))
    (tools : list ParsedTool) : completion (list ParsedTool) :=
  match ms with
  | [] => Normal tools
  | (method, operation) :: rest =>
      tool <- tool_of path method operation ;;
      forEach_method path rest (tools ++ [tool])
  end.

(** [Object.entries(spec.paths).forEach(...)]. *)
Fixpoint forEach_path (ps : list (string * value)) (tools : list ParsedTool)
  : completion (list ParsedTool) :=
  match ps with
  | [] => Normal tools
  | (path, methods) :: rest =>
      ms <- entries methods ;;
      tools' <- forEach_method path ms tools ;;
      forEach_path rest tools'
  end.

(** The [try] block of [parseApiSpec] after [JSON.parse]: the value of
    [tools] when it is handed to [setParsedTools]. *)
Definition parseTools (spec : value) : completion (list ParsedTool) :=
  paths <- get spec "paths" ;;
  if truthy paths then
    ps <- entries paths ;;
    forEach_path ps []
  else Normal [].

(** [parseApiSpec]; [parsed] is the outcome of [JSON.parse(apiSpec)]. *)
Definition parseApiSpec (parsed : completion value) (st : State)
  : State * list effect :=
  if trim (apiSpec st) =? "" then
    (st, [Alert "Please provide an API specification first"])
  else
    match (spec <- parsed ;; parseTools spec) with
    | Normal tools =>
        ({| apiSpec := apiSpec st; systemPrompt := systemPrompt st;
            baseUrl := baseUrl st; parsedTools := tools;
            showToolSelection := true |}, [])
    | Throw _ =>
        (st, [Alert "Invalid JSON in API specification. Please check your JSON syntax."])
    end.

Definition setParsedTools (f : list ParsedTool -> list ParsedTool) (st : State)
  : State :=
  {| apiSpec := apiSpec st; systemPrompt := systemPrompt st;
     baseUrl := baseUrl st; parsedTools := f (parsedTools st);
     showToolSelection := showToolSelection st |}.

Definition with_selected (b : bool) (tool : ParsedTool) : ParsedTool :=
  {| id := id tool; name := name tool; description := description tool;
     method := method tool; path := path tool; selected := b |}.

Definition toggleToolSelection (toolId : string) : State -> State :=
  setParsedTools
    (map (fun tool =>
            if id tool =? toolId then with_selected (negb (selected tool)) tool
            else tool)).

Definition selectAllTools : State -> State :=
  setParsedTools (map (with_selected true)).

Definition deselectAllTools : State -> State :=
  setParsedTools (map (with_selected false)).

Definition setApiSpec (v : string) (st : State) : State :=
  {| apiSpec := v; systemPrompt := systemPrompt st; baseUrl := baseUrl st;
     parsedTools := parsedTools st; showToolSelection := showToolSelection st |}.

Definition setSystemPrompt (v : string) (st : State) : State :=
  {| apiSpec := apiSpec st; systemPrompt := v; baseUrl := baseUrl st;
     parsedTools := parsedTools st; showToolSelection := showToolSelection st |}.

Definition setBaseUrl (v : string) (st : State) : State :=
  {| apiSpec := apiSpec st; systemPrompt := systemPrompt st; baseUrl := v;
     parsedTools := parsedTools st; showToolSelection := showToolSelection st |}.

(** The argument of the [generateMCP] call. *)
Definition request (st : State) (config : Store.MCPConfig) : Api.GenerateRequest :=
  let selectedToolIds :=
    if showToolSelection st
    then Some (map id (filter selected (parsedTools st)))
    else None in
  {| Api.api_spec := apiSpec st;
     Api.system_prompt := systemPrompt st;
     Api.base_url := str_or (trim (baseUrl st)) (str_or (Store.baseUrl config) None);
     Api.selected_tools := selectedToolIds;
     Api.config :=
       {| Api.openai_api_key := Store.openaiApiKey config;
          Api.mcp_name := Store.mcpName config;
          Api.protocol_types := Store.protocolTypes config;
          Api.description := Store.description config;
          Api.version := Store.version config;
          Api.author := Store.author config |} |}.

(** [handleGenerate].  [generateMCP] says how the awaited call settles for a
    given request; the store is the one the component was rendered with. *)
Definition handleGenerate
    (generateMCP : Api.GenerateRequest -> Api.settled Api.GenerateResponse)
    (st : State) (store : Store.AppState) : Store.AppState * list effect :=
  if (trim (apiSpec st) =? "") || (trim (systemPrompt st) =? "") then
    (store, [Alert "Please fill in both API specification and system prompt"])
  else if showToolSelection st
          && (List.length (filter selected (parsedTools st)) =? 0)%nat then
    (store, [Alert "Please select at least one tool to generate"])
  else
    let store1 := Store.setGenerating true store in
    let req := request st (Store.config store) in
    let '(store2, effects) :=
      match generateMCP req with
      | Api.Fulfilled result =>
          (Store.setGenerationResult (Some (Api.zip_data result)) store1,
           [GenerateMCP req; DownloadZip (Api.zip_data result)])
      | Api.Rejected message =>
          (store1,
           [GenerateMCP req;
            ConsoleError "Generation failed:";
            Alert ("Failed to generate MCP: " ++ message)])
      end in
    (Store.setGenerating false store2, effects).

(** The [disabled] attributes of the two buttons. *)
Definition parse_disabled (st : State) : bool := trim (apiSpec st) =? "".

Definition generate_disabled (st : State) (store : Store.AppState) : bool :=
  Store.isGenerating store
  || (trim (apiSpec st) =? "") || (trim (systemPrompt st) =? "").

End Generator.

(* ------------------------------------------------------------------ *)
(** ** components/mcp-config.tsx                                       *)
(* ------------------------------------------------------------------ *)

Module ConfigForm.

Import Store.

Record State : Type := {
  tempConfig : MCPConfig;
  showApiKey : bool
}.

(** The state after the first render and its effect. *)
Definition mount (store : AppState) : State :=
  {| tempConfig := config store; showApiKey := false |}.

Definition setTempConfig (f : MCPConfig -> MCPConfig) (st : State) : State :=
  {| tempConfig := f (tempConfig st); showApiKey := showApiKey st |}.

Definition includes (p : protocol) (l : list protocol) : bool :=
  existsb (protocol_eqb p) l.

(** The [onChange] handler of a protocol check box. *)
Definition changeProtocol (p : protocol) (checked : bool) (prev : MCPConfig)
  : MCPConfig :=
  spread prev
    {| openaiApiKey' := None; mcpName' := None;
       protocolTypes' :=
         Some (if checked then (protocolTypes prev ++ [p])%list
               else filter (fun q => negb (protocol_eqb q p)) (protocolTypes prev));
       description' := None; version' := None; author' := None;
       baseUrl' := None |}.

Definition list_eqb {A : Type} (eqb : A -> A -> bool) : list A -> list A -> bool :=
  fix go (l1 l2 : list A) : bool :=
    match l1, l2 with
    | [], [] => true
    | a :: r1, b :: r2 => eqb a b && go r1 r2
    | _, _ => false
    end.

(** [JSON.stringify(a) === JSON.stringify(b)] for two configurations: both
    are built by spreading over a configuration, so they list the same keys
    in the same order, and the texts agree exactly when all fields do. *)
Definition same_json (a b : MCPConfig) : bool :=
  (openaiApiKey a =? openaiApiKey b)
  && (mcpName a =? mcpName b)
  && list_eqb protocol_eqb (protocolTypes a) (protocolTypes b)
  && (description a =? description b)
  && (version a =? version b)
  && (author a =? author b)
  && (baseUrl a =? baseUrl b).

Definition hasChanges (st : State) (store : AppState) : bool :=
  negb (same_json (tempConfig st) (config store)).

(** The [disabled] attributes of the two buttons. *)
Definition save_disabled (st : State) (store : AppState) : bool :=
  negb (hasChanges st store)
  || (List.length (protocolTypes (tempConfig st)) =? 0)%nat.

Definition reset_disabled (st : State) (store : AppState) : bool :=
  negb (hasChanges st store).

(** [handleSave], followed by the effect that copies the new [config] back
    into [tempConfig]. *)
Definition handleSave (st : State) (store : AppState)
  : State * AppState * list effect :=
  let store' := updateConfig (whole (tempConfig st)) store in
  (setTempConfig (fun _ => config store') st, store',
   [Alert "Configuration saved successfully!"]).

Definition handleReset (st : State) (store : AppState) : State :=
  setTempConfig (fun _ => config store) st.

End ConfigForm.

(* ------------------------------------------------------------------ *)
(** ** components/mcp-tester                                           *)
(* ------------------------------------------------------------------ *)

Module Tester.

Inductive status : Type := unknown | active | inactive.

(** How [fetch(url, { method: 'GET', signal: AbortSignal.timeout(5000) })]
    settles: with a response, or with a rejection (network failure, or the
    abort when five seconds have passed). *)
Inductive fetched : Type :=
| Response (ok : bool)
| Failed.

(** [checkMcpStatus]: the status that is set, and the urls that were fetched.
    [parsed] is the outcome of [JSON.parse(configText)]. *)
Definition checkMcpStatus (fetch : value -> fetched)
    (parsed : completion value) (configText : string) : status * list value :=
  if trim configText =? "" then (unknown, [])
  else
    match
      (config <- parsed ;;
       mcpServers <- get config "mcpServers" ;;
       let servers := or mcpServers (Object []) in
       serverEntries <- entries servers ;;
       match serverEntries with
       | [] => Normal (inactive, [])
       | (_, serverConfig) :: _ =>
           url <- get serverConfig "url" ;;
           if negb (truthy url) then Normal (inactive, [])
           else
             match fetch url with
             | Response true => Normal (active, [url])
             | Response false => Normal (inactive, [url])
             | Failed => Normal (inactive, [url])
             end
       end)
    with
    | Normal r => r
    | Throw _ => (unknown, [])
    end.

End Tester.

(* ------------------------------------------------------------------ *)
(** ** HomePage: the three tabs over the one store                    *)
(* ------------------------------------------------------------------ *)

Module App.

Inductive tab : Type := generator_tab | tester_tab | config_tab.

(** [TabsContent] renders its child only while its tab is the active one,
    so a component's own state starts afresh whenever its tab is entered. *)
Record State : Type := {
  activeTab : tab;
  store : Store.AppState;
  form : ConfigForm.State;
  generator : Generator.State
}.

Definition initial : State := {|
  activeTab := generator_tab;
  store := Store.initialState;
  form := ConfigForm.mount Store.initialState;
  generator := Generator.initial
|}.

(** What the user, the tester component, or the browser can do. *)
Inductive action : Type :=
| SwitchTab (t : tab)
| Reload
(* Config tab *)
| ChangeOpenaiApiKey (v : string)
| ChangeMcpName (v : string)
| ChangeProtocol (p : Store.protocol) (checked : bool)
| ChangeVersion (v : string)
| ChangeAuthor (v : string)
| ChangeBaseUrl (v : string)
| ChangeDescription (v : string)
| ToggleShowApiKey
| ClickSave
| ClickReset
(* Generator tab *)
| EditApiSpec (v : string)
| EditSystemPrompt (v : string)
| EditBaseUrl (v : string)
| ClickLoad (parsed : completion value)
| ToggleTool (toolId : string)
| ClickSelectAll
| ClickDeselectAll
| ClickGenerate (generateMCP : Api.GenerateRequest -> Api.settled Api.GenerateResponse)
(* Tester tab: the two store actions the tester calls *)
| TesterSetTesting (b : bool)
| TesterSetTestResult (r : option Store.TestResponse).

Definition with_store (st : Store.AppState) (s : State) : State :=
  {| activeTab := activeTab s; store := st; form := form s;
     generator := generator s |}.

Definition with_form (f : ConfigForm.State) (s : State) : State :=
  {| activeTab := activeTab s; store := store s; form := f;
     generator := generator s |}.

Definition with_generator (g : Generator.State) (s : State) : State :=
  {| activeTab := activeTab s; store := store s; form := form s;
     generator := g |}.

Definition edit_form (f : Store.MCPConfig -> Store.MCPConfig) (s : State) : State :=
  with_form (ConfigForm.setTempConfig f (form s)) s.

Definition tab_eqb (a b : tab) : bool :=
  match a, b with
  | generator_tab, generator_tab | tester_tab, tester_tab
  | config_tab, config_tab => true
  | _, _ => false
  end.

Definition action_tab (a : action) : option tab :=
  match a with
  | SwitchTab _ | Reload => None
  | ChangeOpenaiApiKey _ | ChangeMcpName _ | ChangeProtocol _ _
  | ChangeVersion _ | ChangeAuthor _ | ChangeBaseUrl _ | ChangeDescription _
  | ToggleShowApiKey | ClickSave | ClickReset => Some config_tab
  | EditApiSpec _ | EditSystemPrompt _ | EditBaseUrl _ | ClickLoad _
  | ToggleTool _ | ClickSelectAll | ClickDeselectAll | ClickGenerate _ =>
      Some generator_tab
  | TesterSetTesting _ | TesterSetTestResult _ => Some tester_tab
  end.

(** One action on the active tab; a disabled button does nothing. *)
Definition perform (a : action) (s : State) : State * list effect :=
  match a with
  | SwitchTab t =>
      if tab_eqb t (activeTab s) then (s, [])
      else ({| activeTab := t; store := store s;
               form := ConfigForm.mount (store s);
               generator := Generator.initial |}, [])
  | Reload =>
      let st := Store.rehydrate (Store.partialize (store s)) in
      ({| activeTab := generator_tab; store := st;
          form := ConfigForm.mount st;
          generator := Generator.initial |}, [])
  | ChangeOpenaiApiKey v =>
      (edit_form (fun prev => Store.spread prev
         {| Store.openaiApiKey' := Some v; Store.mcpName' := None;
            Store.protocolTypes' := None; Store.description' := None;
            Store.version' := None; Store.author' := None;
            Store.baseUrl' := None |}) s, [])
  | ChangeMcpName v =>
      (edit_form (fun prev => Store.spread prev
         {| Store.openaiApiKey' := None; Store.mcpName' := Some v;
            Store.protocolTypes' := None; Store.description' := None;
            Store.version' := None; Store.author' := None;
            Store.baseUrl' := None |}) s, [])
  | ChangeProtocol p checked =>
      (edit_form (ConfigForm.changeProtocol p checked) s, [])
  | ChangeVersion v =>
      (edit_form (fun prev => Store.spread prev
         {| Store.openaiApiKey' := None; Store.mcpName' := None;
            Store.protocolTypes' := None; Store.description' := None;
            Store.version' := Some v; Store.author' := None;
            Store.baseUrl' := None |}) s, [])
  | ChangeAuthor v =>
      (edit_form (fun prev => Store.spread prev
         {| Store.openaiApiKey' := None; Store.mcpName' := None;
            Store.protocolTypes' := None; Store.description' := None;
            Store.version' := None; Store.author' := Some v;
            Store.baseUrl' := None |}) s, [])
  | ChangeBaseUrl v =>
      (edit_form (fun prev => Store.spread prev
         {| Store.openaiApiKey' := None; Store.mcpName' := None;
            Store.protocolTypes' := None; Store.description' := None;
            Store.version' := None; Store.author' := None;
            Store.baseUrl' := Some v |}) s, [])
  | ChangeDescription v =>
      (edit_form (fun prev => Store.spread prev
         {| Store.openaiApiKey' := None; Store.mcpName' := None;
            Store.protocolTypes' := None; Store.description' := Some v;
            Store.version' := None; Store.author' := None;
            Store.baseUrl' := None |}) s, [])
  | ToggleShowApiKey =>
      (with_form {| ConfigForm.tempConfig := ConfigForm.tempConfig (form s);
                    ConfigForm.showApiKey := negb (ConfigForm.showApiKey (form s)) |} s,
       [])
  | ClickSave =>
      if ConfigForm.save_disabled (form s) (store s) then (s, [])
      else
        let '(f, st, effects) := ConfigForm.handleSave (form s) (store s) in
        (with_form f (with_store st s), effects)
  | ClickReset =>
      if ConfigForm.reset_disabled (form s) (store s) then (s, [])
      else (with_form (ConfigForm.handleReset (form s) (store s)) s, [])
  | EditApiSpec v => (with_generator (Generator.setApiSpec v (generator s)) s, [])
  | EditSystemPrompt v =>
      (with_generator (Generator.setSystemPrompt v (generator s)) s, [])
  | EditBaseUrl v => (with_generator (Generator.setBaseUrl v (generator s)) s, [])
  | ClickLoad parsed =>
      if Generator.parse_disabled (generator s) then (s, [])
      else
        let '(g, effects) := Generator.parseApiSpec parsed (generator s) in
        (with_generator g s, effects)
  | ToggleTool toolId =>
      (with_generator (Generator.toggleToolSelection toolId (generator s)) s, [])
  | ClickSelectAll => (with_generator (Generator.selectAllTools (generator s)) s, [])
  | ClickDeselectAll =>
      (with_generator (Generator.deselectAllTools (generator s)) s, [])
  | ClickGenerate generateMCP =>
      if Generator.generate_disabled (generator s) (store s) then (s, [])
      else
        let '(st, effects) :=
          Generator.handleGenerate generateMCP (generator s) (store s) in
        (with_store st s, effects)
  | TesterSetTesting b => (with_store (Store.setTesting b (store s)) s, [])
  | TesterSetTestResult r => (with_store (Store.setTestResult r (store s)) s, [])
  end.

(** An action of a tab that is not shown cannot happen. *)
Definition step (a : action) (s : State) : State * list effect :=
  match action_tab a with
  | Some t => if tab_eqb t (activeTab s) then perform a s else (s, [])
  | None => perform a s
  end.

Definition run (s : State) (actions : list action) : State :=
  fold_left (fun s a => fst (step a s)) actions s.

Inductive reachable : State -> Prop :=
| reachable_initial : reachable initial
| reachable_step (a : action) (s : State) :
    reachable s -> reachable (fst (step a s)).

(** The configuration in the store selects at least one protocol. *)
Definition has_transport (s : State) : Prop :=
  Store.protocolTypes (Store.config (store s)) <> [].

End App.

(* ------------------------------------------------------------------ *)
(** ** Vocabulary of the statements                                    *)
(* ------------------------------------------------------------------ *)

Module Description.

(** The operations of a parsed description, each with its path and its
    method key, in the order the two nested [Object.entries] loops of
    [parseApiSpec] visit them. *)
Definition operation : Type := (string * string * value)%type.

Definition operations_of_path (path : string) (methods : value)
  : completion (list operation) :=
  ms <- entries methods ;;
  Normal (map (fun mo => (path, fst mo, snd mo)) ms).

Fixpoint operations_of_paths (ps : list (string * value))
  : completion (list operation) :=
  match ps with
  | [] => Normal []
  | (path, methods) :: rest =>
      here <- operations_of_path path methods ;;
      later <- operations_of_paths rest ;;
      Normal (here ++ later)%list
  end.

Definition operations (spec : value) : completion (list operation) :=
  paths <- get spec "paths" ;;
  if truthy paths then
    ps <- entries paths ;;
    operations_of_paths ps
  else Normal [].

Definition op_path (o : operation) : string := fst (fst o).
Definition op_method (o : operation) : string := snd (fst o).
Definition op_body (o : operation) : value := snd o.

(** [made_from o t]: [t] is the tool the callback pushes for [o]. *)
Definition made_from (o : operation) (t : Generator.ParsedTool) : Prop :=
  Generator.tool_of (op_path o) (op_method o) (op_body o) = Normal t.

(** The value a document gives to a property of an operation, when the
    operation is an object that has the property. *)
Definition declares (op : value) (k : string) : option value :=
  match op with
  | Object props => assoc k props
  | _ => None
  end.

(** [first_entry config sc]: [sc] is the value of the first entry of
    [config.mcpServers || {}]. *)
Inductive first_entry (config sc : value) : Prop :=
| first_entry_intro (m : value) (k : string) (rest : list (string * value)) :
    get config "mcpServers" = Normal m ->
    entries (or m (Object [])) = Normal ((k, sc) :: rest) ->
    first_entry config sc.

(** [no_entry config]: [config.mcpServers || {}] has no entry. *)
Inductive no_entry (config : value) : Prop :=
| no_entry_intro (m : value) :
    get config "mcpServers" = Normal m ->
    entries (or m (Object [])) = Normal [] ->
    no_entry config.

Definition is_object (v : value) : bool :=
  match v with
  | Object _ => true
  | _ => false
  end.

(** A description whose [paths], path items and operations are all
    objects, or that has no [paths] at all. *)
Definition well_formed (spec : value) : bool :=
  match spec with
  | Object props =>
      match assoc "paths" props with
      | None => true
      | Some (Object ps) =>
          forallb
            (fun pm =>
               match snd pm with
               | Object ms => forallb (fun mo => is_object (snd mo)) ms
               | _ => false
               end)
            ps
      | Some _ => false
      end
  | _ => false
  end.

(** The ascending order on (path, method) pairs, strings compared code unit
    by code unit. *)
Definition pair_ltb (a b : string * string) : bool :=
  (fst a <? fst b) || ((fst a =? fst b) && (snd a <? snd b)).

(** The sixteen hexadecimal digits, in either case. *)
Definition isHexDigit (c : ascii) : bool :=
  isDigit c || between 97 102 c || between 65 70 c.

Fixpoint all_chars (p : ascii -> bool) (s : string) : bool :=
  match s with
  | EmptyString => true
  | String c rest => p c && all_chars p rest
  end.

(** The value of a hexadecimal digit. *)
Definition hex_value (c : ascii) : Z :=
  if isDigit c then Z.of_N (code c) - 48
  else if between 97 102 c then Z.of_N (code c) - 87
  else Z.of_N (code c) - 55.

End Description.

(* ------------------------------------------------------------------ *)
(** ** Sample inputs                                                   *)
(* ------------------------------------------------------------------ *)

Module Examples.

(** A small description: three operations under two paths. *)
Definition petstore : value :=
  Object
    [("openapi", Str "3.0.0");
     ("paths",
      Object
        [("/pets",
          Object
            [("get", Object [("operationId", Str "listPets");
                             ("summary", Str "List all pets")]);
             ("post", Object [("description", Str "Create a pet")])]);
         ("/pets/{petId}", Object [("get", Object [])])])].

Definition petstore_tools : list Generator.ParsedTool :=
  Eval vm_compute in
    match Generator.parseTools petstore with
    | Normal tools => tools
    | Throw _ => []
    end.

(** An operation whose identifier and description are the empty string. *)
Definition blank_operation : value :=
  Object [("operationId", Str ""); ("description", Str "");
          ("summary", Str "List all pets")].

Definition blank_spec : value :=
  Object [("paths", Object [("/pets", Object [("get", blank_operation)])])].

(** Paths listed in descending order. *)
Definition unsorted_spec : value :=
  Object [("paths", Object [("/b", Object [("get", Object [])]);
                            ("/a", Object [("get", Object [])])])].

(** Two paths with the same slug. *)
Definition clash_spec : value :=
  Object [("paths", Object [("/a-b", Object [("get", Object [])]);
                            ("/a_b", Object [("get", Object [])])])].

(** A generator form that is filled in, with the tools of [petstore] loaded
    and every one of them deselected. *)
Definition nothing_selected : Generator.State :=
  Generator.deselectAllTools
    {| Generator.apiSpec := "{ }";
       Generator.systemPrompt := "You are a pet shop assistant.";
       Generator.baseUrl := "  https://pets.example.com ";
       Generator.parsedTools := petstore_tools;
       Generator.showToolSelection := true |}.

(** The same form with every tool selected. *)
Definition all_selected : Generator.State :=
  Generator.selectAllTools nothing_selected.

(** A server that answers every request with the same archive. *)
Definition always_ok (_ : Api.GenerateRequest) : Api.settled Api.GenerateResponse :=
  Api.Fulfilled {| Api.zip_data := "504b0506" |}.

(** Opening the Config tab, ticking HTTP, unticking STDIO and saving. *)
Definition switch_to_http : list App.action :=
  [App.SwitchTab App.config_tab;
   App.ChangeProtocol Store.http true;
   App.ChangeProtocol Store.stdio false;
   App.ClickSave].

(** The same, then an attempt to save with every protocol unticked. *)
Definition untick_everything : list App.action :=
  (switch_to_http ++ [App.ChangeProtocol Store.http false; App.ClickSave])%list.

(** A tester configuration with two servers. *)
Definition two_servers : value :=
  Object [("mcpServers",
           Object [("first", Object [("url", Str "http://localhost:8001/mcp")]);
                   ("second", Object [("url", Str "http://localhost:8002/mcp")])])].

(** A tester configuration whose first server is [null]. *)
Definition null_server : value :=
  Object [("mcpServers",
           Object [("first", Null);
                   ("second", Object [("url", Str "http://localhost:8002/mcp")])])].

(** Only the second server is up. *)
Definition second_is_up (url : value) : Tester.fetched :=
  match url with
  | Str "http://localhost:8002/mcp" => Tester.Response true
  | _ => Tester.Failed
  end.

Definition everything_is_up (_ : value) : Tester.fetched := Tester.Response true.

End Examples.

(* ------------------------------------------------------------------ *)
(** ** components/mcp-tester: running a test                           *)
(* ------------------------------------------------------------------ *)

Module TesterForm.

(** What [JSON.parse(mcpConfig)] gives inside [handleTest]: a value, or a
    syntax error whose message ends up in the alert. *)
Inductive parsed_text : Type :=
| Parsed (config : value)
| Unparsable (message : string).

(** What [handleTest] does to the outside. *)
Inductive call : Type :=
| Shown (e : effect)
| TestMCP (request : Api.TestRequest).

(** [handleTest]; [testMCP] says how the awaited call settles. *)
Definition handleTest
    (testMCP : Api.TestRequest -> Api.settled Store.TestResponse)
    (parsed : parsed_text) (mcpConfig prompt : string)
    (store : Store.AppState) : Store.AppState * list call :=
  if (trim mcpConfig =? "") || (trim prompt =? "") then
    (store, [Shown (Alert "Please fill in both MCP configuration and prompt")])
  else
    let store1 := Store.setTesting true store in
    let '(store2, calls) :=
      match parsed with
      | Parsed config =>
          let req := {| Api.mcp_config := config; Api.prompt := prompt |} in
          match testMCP req with
          | Api.Fulfilled result =>
              (Store.setTestResult (Some result) store1, [TestMCP req])
          | Api.Rejected message =>
              (store1,
               [TestMCP req;
                Shown (ConsoleError "Testing failed:");
                Shown (Alert ("Failed to test MCP: " ++ message))])
          end
      | Unparsable message =>
          (store1,
           [Shown (ConsoleError "Testing failed:");
            Shown (Alert ("Failed to test MCP: " ++ message))])
      end in
    (Store.setTesting false store2, calls).

(** The [disabled] attribute of the Test button. *)
Definition test_disabled (mcpConfig prompt : string) (store : Store.AppState)
  : bool :=
  Store.isTesting store || (trim mcpConfig =? "") || (trim prompt =? "").

End TesterForm.

(* ------------------------------------------------------------------ *)
(** ** More sample inputs                                              *)
(* ------------------------------------------------------------------ *)

Module MoreExamples.

(** A description with a [null] where an operation should be. *)
Definition null_operation_spec : value :=
  Object [("paths",
           Object [("/pets", Object [("get", Object []); ("post", Null)])])].

(** A description without paths. *)
Definition no_paths_spec : value := Object [("openapi", Str "3.0.0")].

(** A generator form that is filled in, nothing loaded yet. *)
Definition filled_in : Generator.State :=
  {| Generator.apiSpec := "{ }";
     Generator.systemPrompt := "You are a pet shop assistant.";
     Generator.baseUrl := "";
     Generator.parsedTools := [];
     Generator.showToolSelection := false |}.

(** A server that refuses every request. *)
Definition always_fails (_ : Api.GenerateRequest)
  : Api.settled Api.GenerateResponse :=
  Api.Rejected "Internal Server Error".

End MoreExamples.

(* ------------------------------------------------------------------ *)
(** ** More vocabulary                                                 *)
(* ------------------------------------------------------------------ *)

Module Encoding.

(** The lower-case hexadecimal digit of a number below sixteen. *)
Definition hex_digit (d : Z) : ascii :=
  if (d <? 10)%Z then ascii_of_N (Z.to_N (48 + d))
  else ascii_of_N (Z.to_N (87 + d)).

(** The text [downloadZip] is written to undo: two digits per byte, the
    high one first. *)
Fixpoint to_hex (bytes : list Z) : string :=
  match bytes with
  | [] => EmptyString
  | b :: rest =>
      String (hex_digit (b / 16)) (String (hex_digit (b mod 16)) (to_hex rest))
  end.

Definition is_byte (b : Z) : Prop := (0 <= b < 256)%Z.

(** The characters a slug is made of. *)
Definition isSlugChar (c : ascii) : bool := isAlnum c || (code c =? 95)%N.

(** A path that begins with a slash. *)
Definition rooted (p : string) : bool :=
  match p with
  | String c _ => (code c =? 47)%N
  | EmptyString => false
  end.

Definition no_slash (c : ascii) : bool := negb (code c =? 47)%N.

End Encoding.

(* ------------------------------------------------------------------ *)
(** * Properties                                                       *)
(* ------------------------------------------------------------------ *)

(** ** Reading a description: what [parseTools] builds *)

Section ParseTools.

Import Generator Description.

Ltac unbind H :=
  match type of H with
  | bind ?c _ = Normal _ =>
      let E := fresh "E" in
      destruct c eqn:E; simpl in H; [ | discriminate H ]
  end.

Lemma tool_of_inv (p m : string) (op : value) (t : ParsedTool) :
  tool_of p m op = Normal t ->
  exists declared d s,
    get op "operationId" = Normal declared /\
    get op "description" = Normal d /\
    get op "summary" = Normal s /\
    t = {| id := m ++ "_" ++ p;
           name := or declared (Str (m ++ "_" ++ replace_non_alnum p));
           description := or d (or s (Str (toUpperCase m ++ " " ++ p)));
           method := toUpperCase m;
           path := p;
           selected := true |}.
Proof.
  unfold tool_of, operationId, description_of. intro H.
  destruct (get op "operationId") as [declared|] eqn:E1; simpl in H; [|discriminate].
  destruct (get op "description") as [d|] eqn:E2; simpl in H; [|discriminate].
  destruct (get op "summary") as [s|] eqn:E3; simpl in H; [|discriminate].
  exists declared, d, s. injection H as <-. repeat split.
Qed.

Lemma forEach_method_spec (p : string) (ms : list (string * value)) :
  forall acc tools,
    forEach_method p ms acc = Normal tools ->
    exists new,
      tools = (acc ++ new)%list /\
      Forall2 made_from (map (fun mo => (p, fst mo, snd mo)) ms) new.
Proof.
  induction ms as [|[m op] rest IH]; intros acc tools H; simpl in H.
  - exists []. split; [ injection H as <-; now rewrite app_nil_r | constructor ].
  - unbind H. apply IH in H as (new & -> & Hnew).
    exists (a :: new). split.
    + now rewrite <- app_assoc.
    + constructor; assumption.
Qed.

Lemma forEach_path_spec (ps : list (string * value)) :
  forall acc tools,
    forEach_path ps acc = Normal tools ->
    exists ops new,
      operations_of_paths ps = Normal ops /\
      tools = (acc ++ new)%list /\
      Forall2 made_from ops new.
Proof.
  induction ps as [|[p methods] rest IH]; intros acc tools H; simpl in H.
  - exists [], []. repeat split; [ injection H as <-; now rewrite app_nil_r | constructor ].
  - unbind H. unbind H.
    apply forEach_method_spec in E0 as (new1 & -> & H1).
    apply IH in H as (ops2 & new2 & Hops & -> & H2).
    exists (map (fun mo => (p, fst mo, snd mo)) a ++ ops2)%list, (new1 ++ new2)%list.
    repeat split.
    + simpl. unfold operations_of_path. rewrite E. simpl. rewrite Hops. reflexivity.
    + now rewrite app_assoc.
    + apply Forall2_app; assumption.
Qed.

(** Every tool comes from one operation, in the order of the operations. *)
Lemma parseTools_spec (spec : value) (tools : list ParsedTool) :
  parseTools spec = Normal tools ->
  exists ops, operations spec = Normal ops /\ Forall2 made_from ops tools.
Proof.
  unfold parseTools, operations. intro H.
  destruct (get spec "paths") as [paths|] eqn:E; simpl in *; [|discriminate].
  destruct (truthy paths).
  - unbind H. apply forEach_path_spec in H as (ops & new & Hops & -> & Hnew).
    exists ops. split; assumption.
  - injection H as <-. exists []. split; [reflexivity|constructor].
Qed.

(** On a description made of objects nothing throws: a tool list is built. *)
Lemma forEach_method_total (p : string) (ms : list (string * value)) :
  forallb (fun mo => is_object (snd mo)) ms = true ->
  forall acc, exists tools, forEach_method p ms acc = Normal tools.
Proof.
  induction ms as [|[m op] rest IH]; simpl; intros H acc.
  - now exists acc.
  - apply andb_prop in H as [Hop Hrest].
    destruct op; try discriminate Hop. simpl.
    apply (IH Hrest).
Qed.

Lemma forEach_path_total (ps : list (string * value)) :
  forallb
    (fun pm =>
       match snd pm with
       | Object ms => forallb (fun mo => is_object (snd mo)) ms
       | _ => false
       end) ps = true ->
  forall acc, exists tools, forEach_path ps acc = Normal tools.
Proof.
  induction ps as [|[p methods] rest IH]; simpl; intros H acc.
  - now exists acc.
  - apply andb_prop in H as [Hms Hrest].
    destruct methods; try discriminate Hms. simpl.
    destruct (forEach_method_total p props Hms acc) as [tools' ->]. simpl.
    apply (IH Hrest).
Qed.

Lemma parseTools_total (spec : value) :
  well_formed spec = true -> exists tools, parseTools spec = Normal tools.
Proof.
  unfold well_formed, parseTools. destruct spec; try discriminate. simpl.
  destruct (assoc "paths" props) as [paths|]; simpl.
  - destruct paths; try discriminate. simpl. intro H.
    now apply forEach_path_total.
  - intros _. now exists [].
Qed.

Lemma made_from_inv (o : operation) (t : ParsedTool) :
  made_from o t ->
  exists declared d s,
    get (op_body o) "operationId" = Normal declared /\
    get (op_body o) "description" = Normal d /\
    get (op_body o) "summary" = Normal s /\
    id t = op_method o ++ "_" ++ op_path o /\
    name t = or declared (Str (op_method o ++ "_" ++ replace_non_alnum (op_path o))) /\
    description t = or d (or s (Str (toUpperCase (op_method o) ++ " " ++ op_path o))) /\
    method t = toUpperCase (op_method o) /\
    path t = op_path o /\
    selected t = true.
Proof.
  intro H. apply tool_of_inv in H as (declared & d & s & H1 & H2 & H3 & ->).
  exists declared, d, s. repeat split; assumption.
Qed.

Lemma Forall2_weaken {A B : Type} (P Q : A -> B -> Prop) (l : list A) (l' : list B) :
  (forall a b, P a b -> Q a b) -> Forall2 P l l' -> Forall2 Q l l'.
Proof. intros HPQ H. induction H; constructor; auto. Qed.

Lemma Forall2_map_eq {A B C : Type} (f : A -> C) (g : B -> C) (l : list A) (l' : list B) :
  Forall2 (fun a b => f a = g b) l l' -> map f l = map g l'.
Proof. intro H. induction H; simpl; congruence. Qed.

(** The slug keeps the length and every letter and digit, and puts an
    underscore in place of every other code unit. *)
Lemma replace_non_alnum_get (s : string) (i : nat) :
  String.get i (replace_non_alnum s) =
  option_map (fun c => if isAlnum c then c else "_"%char) (String.get i s).
Proof.
  revert i. induction s as [|c rest IH]; intros [|i]; simpl; auto.
Qed.

(** C1 (as amended): for every operation of a parsed description the tool
    name is the value of the operation's [operationId] when that value is
    declared and truthy (for a string: non-empty); otherwise, also when the
    declared identifier is the empty string, it is the method key, an
    underscore, and the path with every code unit outside [a-zA-Z0-9]
    replaced by an underscore. *)
Theorem C1_tool_name (spec : value) (tools : list ParsedTool) :
  parseTools spec = Normal tools ->
  exists ops,
    operations spec = Normal ops /\
    Forall2
      (fun o t =>
         exists declared,
           get (op_body o) "operationId" = Normal declared /\
           name t =
             if truthy declared then declared
             else Str (op_method o ++ "_" ++ replace_non_alnum (op_path o)))
      ops tools.
Proof.
  intro H. apply parseTools_spec in H as (ops & Hops & Hall).
  exists ops. split; [assumption|].
  eapply Forall2_weaken; [|exact Hall].
  intros o t Hot. apply made_from_inv in Hot as (declared & d & s & H1 & _ & _ & _ & Hn & _).
  exists declared. split; [assumption|]. exact Hn.
Qed.

Lemma C1_tool_name_witness :
  exists ops,
    operations Examples.petstore = Normal ops /\
    Forall2
      (fun o t =>
         exists declared,
           get (op_body o) "operationId" = Normal declared /\
           name t =
             if truthy declared then declared
             else Str (op_method o ++ "_" ++ replace_non_alnum (op_path o)))
      ops Examples.petstore_tools.
Proof.
  apply (C1_tool_name Examples.petstore Examples.petstore_tools).
  reflexivity.
Defined.

(** C1 as stated fails: an operation that declares the identifier [""] gets
    the method-and-slug name, not its declared identifier. *)
Lemma C1_counterexample :
  exists t,
    parseTools Examples.blank_spec = Normal [t] /\
    declares Examples.blank_operation "operationId" = Some (Str "") /\
    name t = Str "get__pets" /\
    name t <> Str "".
Proof.
  eexists. split; [reflexivity|]. split; [reflexivity|].
  split; [reflexivity|]. discriminate.
Qed.

(** C2 (as amended): the tools come in the order in which [Object.entries]
    enumerates the paths of the description and, within a path, its method
    keys: the list of their paths, and of their ids (method key, underscore,
    path), is the list of the operations' in that order; the list is not
    sorted.  A run of [parseApiSpec] on the same parsed description replaces
    whatever list was there by this same list, so two runs give the same
    names in the same order. *)
Theorem C2_tool_order (spec : value) (tools : list ParsedTool) :
  parseTools spec = Normal tools ->
  exists ops,
    operations spec = Normal ops /\
    map (fun t => (path t, id t)) tools =
      map (fun o => (op_path o, op_method o ++ "_" ++ op_path o)) ops /\
    forall st,
      trim (apiSpec st) <> "" ->
      parsedTools (fst (parseApiSpec (Normal spec) st)) = tools /\
      showToolSelection (fst (parseApiSpec (Normal spec) st)) = true.
Proof.
  intro H. destruct (parseTools_spec _ _ H) as (ops & Hops & Hall).
  exists ops. split; [assumption|]. split.
  - symmetry. apply Forall2_map_eq.
    eapply Forall2_weaken; [|exact Hall].
    intros o t Hot.
    apply made_from_inv in Hot as (? & ? & ? & _ & _ & _ & Hid & _ & _ & _ & Hp & _).
    now rewrite Hid, Hp.
  - intros st Hs. unfold parseApiSpec.
    destruct (trim (apiSpec st) =? "") eqn:E.
    + apply String.eqb_eq in E. contradiction.
    + simpl. rewrite H. split; reflexivity.
Qed.

Lemma C2_tool_order_witness :
  exists ops,
    operations Examples.petstore = Normal ops /\
    map (fun t => (path t, id t)) Examples.petstore_tools =
      map (fun o => (op_path o, op_method o ++ "_" ++ op_path o)) ops /\
    forall st,
      trim (apiSpec st) <> "" ->
      parsedTools (fst (parseApiSpec (Normal Examples.petstore) st))
        = Examples.petstore_tools /\
      showToolSelection (fst (parseApiSpec (Normal Examples.petstore) st)) = true.
Proof.
  apply (C2_tool_order Examples.petstore Examples.petstore_tools).
  reflexivity.
Defined.

(** C2 as stated fails: with [/b] listed before [/a] the tool of [/b] comes
    first, although ([/a], GET) is below ([/b], GET). *)
Lemma C2_counterexample :
  exists t1 t2,
    parseTools Examples.unsorted_spec = Normal [t1; t2] /\
    (path t1, method t1) = ("/b", "GET") /\
    (path t2, method t2) = ("/a", "GET") /\
    pair_ltb (path t2, method t2) (path t1, method t1) = true.
Proof.
  do 2 eexists. split; [reflexivity|]. repeat split.
Qed.

Lemma NoDup_map_Normal {A : Type} (l : list A) :
  NoDup (map (@Normal A) l) <-> NoDup l.
Proof.
  split; intro H.
  - induction l as [|a l IH]; [constructor|].
    simpl in H. inversion H as [|x xs Hnin Hnd]; subst.
    constructor; [|auto].
    intro Hin. apply Hnin. now apply in_map.
  - induction H as [|a l Hnin Hnd IH]; simpl; constructor; [|assumption].
    intro Hin. apply in_map_iff in Hin as (b & Hb & Hin).
    injection Hb as ->. contradiction.
Qed.

(** C3 (as amended): no suffix is ever appended.  Every tool carries the
    name derived for its operation, unchanged, so the names in the list are
    pairwise distinct exactly when the derived names of the operations are;
    two operations with the same derived name give two tools with the same
    name. *)
Theorem C3_names_unchanged (spec : value) (tools : list ParsedTool) :
  parseTools spec = Normal tools ->
  exists ops,
    operations spec = Normal ops /\
    map (fun t => Normal (name t)) tools =
      map (fun o => operationId (op_path o) (op_method o) (op_body o)) ops /\
    (NoDup (map name tools) <->
     NoDup (map (fun o => operationId (op_path o) (op_method o) (op_body o)) ops)).
Proof.
  intro H. apply parseTools_spec in H as (ops & Hops & Hall).
  assert (Hmap : map (fun t => Normal (name t)) tools =
                 map (fun o => operationId (op_path o) (op_method o) (op_body o)) ops).
  { symmetry. apply Forall2_map_eq.
    eapply Forall2_weaken; [|exact Hall].
    intros o t Hot.
    apply made_from_inv in Hot as (declared & ? & ? & H1 & _ & _ & _ & Hn & _).
    unfold operationId. rewrite H1. simpl. now rewrite Hn. }
  exists ops. split; [assumption|]. split; [assumption|].
  rewrite <- Hmap, <- (map_map name (@Normal value)).
  symmetry. apply NoDup_map_Normal.
Qed.

Lemma C3_names_unchanged_witness :
  exists ops,
    operations Examples.petstore = Normal ops /\
    map (fun t => Normal (name t)) Examples.petstore_tools =
      map (fun o => operationId (op_path o) (op_method o) (op_body o)) ops /\
    (NoDup (map name Examples.petstore_tools) <->
     NoDup (map (fun o => operationId (op_path o) (op_method o) (op_body o)) ops)).
Proof.
  apply (C3_names_unchanged Examples.petstore Examples.petstore_tools).
  reflexivity.
Defined.

(** C3 as stated fails: the paths [/a-b] and [/a_b] have the same slug, and
    both tools are named [get__a_b]. *)
Lemma C3_counterexample :
  exists t1 t2,
    parseTools Examples.clash_spec = Normal [t1; t2] /\
    name t1 = Str "get__a_b" /\
    name t2 = Str "get__a_b" /\
    ~ NoDup (map name [t1; t2]).
Proof.
  do 2 eexists. split; [reflexivity|]. split; [reflexivity|]. split; [reflexivity|].
  simpl. intro H. inversion H as [|x xs Hnin _]; subst.
  apply Hnin. now left.
Qed.

(** On ASCII text [toUpperCase] works unit by unit: [a]..[z] go to
    [A]..[Z] and nothing else changes. *)
Lemma toUpperCase_ascii (s : string) :
  ascii_text s = true -> toUpperCase s = map_chars upper_char s.
Proof.
  induction s as [|c rest IH]; simpl; [reflexivity|].
  intro H. apply andb_prop in H as [Hc Hrest]. rewrite (IH Hrest).
  replace (upper_unit c) with (String (upper_char c) EmptyString); [reflexivity|].
  revert Hc. clear.
  destruct c as [[] [] [] [] [] [] [] []]; intro Hc;
    try discriminate Hc; reflexivity.
Qed.

(** C7 (as amended): for every operation of a parsed description the tool
    description is the value of the operation's [description] when that is
    declared and truthy (for a string: non-empty); else the value of its
    [summary] when that is declared and truthy; else, for a method key in
    ASCII, the upper-cased method key ([a]..[z] to [A]..[Z]), a space, and
    the path.  An empty description or summary counts as missing. *)
Theorem C7_tool_description (spec : value) (tools : list ParsedTool) :
  parseTools spec = Normal tools ->
  exists ops,
    operations spec = Normal ops /\
    Forall2
      (fun o t =>
         exists d s,
           get (op_body o) "description" = Normal d /\
           get (op_body o) "summary" = Normal s /\
           (truthy d = true -> description t = d) /\
           (truthy d = false -> truthy s = true -> description t = s) /\
           (truthy d = false -> truthy s = false ->
            ascii_text (op_method o) = true ->
            description t =
              Str (map_chars upper_char (op_method o) ++ " " ++ op_path o)))
      ops tools.
Proof.
  intro H. apply parseTools_spec in H as (ops & Hops & Hall).
  exists ops. split; [assumption|].
  eapply Forall2_weaken; [|exact Hall].
  intros o t Hot.
  apply made_from_inv in Hot as (? & d & s & _ & H2 & H3 & _ & _ & Hd & _).
  exists d, s. split; [assumption|]. split; [assumption|].
  unfold or in Hd. split; [|split].
  - intro Ht. now rewrite Ht in Hd.
  - intros Ht Hs. now rewrite Ht, Hs in Hd.
  - intros Ht Hs Hascii. rewrite Ht, Hs in Hd.
    now rewrite <- (toUpperCase_ascii _ Hascii).
Qed.

Lemma C7_tool_description_witness :
  exists t,
    nth_error Examples.petstore_tools 2 = Some t /\
    description t = Str "GET /pets/{petId}".
Proof.
  destruct (C7_tool_description Examples.petstore Examples.petstore_tools eq_refl)
    as (ops & Hops & Hall).
  vm_compute in Hops. injection Hops as <-.
  unfold Examples.petstore_tools in Hall.
  inversion Hall as [|o1 t1 l1 l1' _ Hall1]; subst.
  inversion Hall1 as [|o2 t2 l2 l2' _ Hall2]; subst.
  inversion Hall2 as [|o3 t3 l3 l3' H3 _]; subst.
  destruct H3 as (d & s & Hd & Hs & _ & _ & Hdef).
  vm_compute in Hd, Hs. injection Hd as <-. injection Hs as <-.
  eexists. split; [reflexivity|].
  exact (Hdef eq_refl eq_refl eq_refl).
Defined.

(** C7 as stated fails: an operation whose description is present but empty
    is shown with its summary. *)
Lemma C7_counterexample :
  exists t,
    parseTools Examples.blank_spec = Normal [t] /\
    declares Examples.blank_operation "description" = Some (Str "") /\
    description t = Str "List all pets" /\
    description t <> Str "".
Proof.
  eexists. split; [reflexivity|]. split; [reflexivity|].
  split; [reflexivity|]. discriminate.
Qed.

End ParseTools.

(** ** Generating: [handleGenerate] *)

Section HandleGenerate.

Import Generator.

Variable generateMCP : Api.GenerateRequest -> Api.settled Api.GenerateResponse.

(** The only request [handleGenerate] ever issues is [request], built from
    the form and the configuration of the store, and it issues it only when
    both texts are filled in. *)
Lemma handleGenerate_request (st : State) (store : Store.AppState)
    (req : Api.GenerateRequest) :
  In (GenerateMCP req) (snd (handleGenerate generateMCP st store)) ->
  req = request st (Store.config store).
Proof.
  unfold handleGenerate.
  destruct ((trim (apiSpec st) =? "") || (trim (systemPrompt st) =? "")).
  { simpl. intros [H|[]]. discriminate. }
  destruct (showToolSelection st
            && (List.length (filter selected (parsedTools st)) =? 0)%nat).
  { simpl. intros [H|[]]. discriminate. }
  destruct (generateMCP (request st (Store.config store))); simpl.
  - intros [H|[H|[]]]; [congruence|discriminate].
  - intros [H|[H|[H|[]]]]; [congruence|discriminate|discriminate].
Qed.

(** The store actions of [handleGenerate] leave the configuration alone. *)
Lemma handleGenerate_config (st : State) (store : Store.AppState) :
  Store.config (fst (handleGenerate generateMCP st store)) = Store.config store.
Proof.
  unfold handleGenerate.
  destruct ((trim (apiSpec st) =? "") || (trim (systemPrompt st) =? "")); [reflexivity|].
  destruct (showToolSelection st
            && (List.length (filter selected (parsedTools st)) =? 0)%nat); [reflexivity|].
  destruct (generateMCP (request st (Store.config store))); reflexivity.
Qed.

(** C4: whenever the tool selection is shown and no tool is selected,
    [handleGenerate] returns after an alert: the store is untouched and no
    generate request is issued, whatever the server would have answered. *)
Theorem C4_empty_selection_refused (st : State) (store : Store.AppState) :
  showToolSelection st = true ->
  filter selected (parsedTools st) = [] ->
  fst (handleGenerate generateMCP st store) = store /\
  (exists message, snd (handleGenerate generateMCP st store) = [Alert message]) /\
  (forall req, ~ In (GenerateMCP req) (snd (handleGenerate generateMCP st store))).
Proof.
  intros Hshow Hnone. unfold handleGenerate. rewrite Hshow, Hnone. simpl.
  destruct ((trim (apiSpec st) =? "") || (trim (systemPrompt st) =? "")); simpl.
  - split; [reflexivity|]. split; [eexists; reflexivity|].
    intros req [H|[]]. discriminate.
  - split; [reflexivity|]. split; [eexists; reflexivity|].
    intros req [H|[]]. discriminate.
Qed.

(** C6: the [base_url] of the request is the trimmed Base URL field when
    that is not empty; otherwise the [baseUrl] of the stored configuration
    when that is not empty; otherwise it is absent. *)
Theorem C6_base_url_precedence (st : State) (store : Store.AppState)
    (req : Api.GenerateRequest) :
  In (GenerateMCP req) (snd (handleGenerate generateMCP st store)) ->
  (trim (baseUrl st) <> "" ->
     Api.base_url req = Some (trim (baseUrl st))) /\
  (trim (baseUrl st) = "" -> Store.baseUrl (Store.config store) <> "" ->
     Api.base_url req = Some (Store.baseUrl (Store.config store))) /\
  (trim (baseUrl st) = "" -> Store.baseUrl (Store.config store) = "" ->
     Api.base_url req = None).
Proof.
  intro Hin. apply handleGenerate_request in Hin. subst req.
  unfold request, str_or. simpl.
  destruct (trim (baseUrl st) =? "") eqn:E1;
    [apply String.eqb_eq in E1 | apply String.eqb_neq in E1];
    (destruct (Store.baseUrl (Store.config store) =? "") eqn:E2;
     [apply String.eqb_eq in E2 | apply String.eqb_neq in E2]);
    repeat split; intros; congruence.
Qed.

End HandleGenerate.

Lemma C4_empty_selection_refused_witness :
  fst (Generator.handleGenerate Examples.always_ok Examples.nothing_selected
         Store.initialState) = Store.initialState /\
  (exists message,
     snd (Generator.handleGenerate Examples.always_ok Examples.nothing_selected
            Store.initialState) = [Alert message]) /\
  (forall req,
     ~ In (GenerateMCP req)
          (snd (Generator.handleGenerate Examples.always_ok
                  Examples.nothing_selected Store.initialState))).
Proof.
  apply (C4_empty_selection_refused Examples.always_ok Examples.nothing_selected
           Store.initialState); reflexivity.
Defined.

Lemma C6_base_url_precedence_witness :
  let st := Examples.all_selected in
  let store := Store.initialState in
  let req := Generator.request st (Store.config store) in
  In (GenerateMCP req) (snd (Generator.handleGenerate Examples.always_ok st store)) /\
  Api.base_url req = Some "https://pets.example.com".
Proof.
  assert (Hin : In (GenerateMCP (Generator.request Examples.all_selected
                                   (Store.config Store.initialState)))
                   (snd (Generator.handleGenerate Examples.always_ok
                           Examples.all_selected Store.initialState))).
  { left. reflexivity. }
  split; [exact Hin|].
  destruct (C6_base_url_precedence Examples.always_ok Examples.all_selected
              Store.initialState _ Hin) as (H1 & _ & _).
  apply H1. vm_compute. discriminate.
Defined.

(** ** The store: what is persisted and what [updateConfig] touches *)

Section StoreFacts.

Import Store.

(** C9: [partialize] keeps the [config] field and nothing else, so none of
    [isGenerating], [isTesting], [generationResult] and [testResult] is
    written to storage and the stored object does not depend on them; and
    [updateConfig] gives each configuration field the value found in its
    argument when the argument has one and the old value otherwise, leaving
    the rest of the state as it was. *)
Theorem C9_persisted_and_updated (s : AppState) (updates : PartialMCPConfig) :
  (config' (partialize s) = Some (config s) /\
   isGenerating' (partialize s) = None /\
   isTesting' (partialize s) = None /\
   generationResult' (partialize s) = None /\
   testResult' (partialize s) = None) /\
  (forall g t gr tr,
     partialize (setGenerating g (setTesting t
        (setGenerationResult gr (setTestResult tr s)))) = partialize s) /\
  (let c := config s in
   let c' := config (updateConfig updates s) in
   openaiApiKey c' =
     match openaiApiKey' updates with Some v => v | None => openaiApiKey c end /\
   mcpName c' =
     match mcpName' updates with Some v => v | None => mcpName c end /\
   protocolTypes c' =
     match protocolTypes' updates with Some v => v | None => protocolTypes c end /\
   description c' =
     match description' updates with Some v => v | None => description c end /\
   version c' =
     match version' updates with Some v => v | None => version c end /\
   author c' =
     match author' updates with Some v => v | None => author c end /\
   baseUrl c' =
     match baseUrl' updates with Some v => v | None => baseUrl c end) /\
  (isGenerating (updateConfig updates s) = isGenerating s /\
   isTesting (updateConfig updates s) = isTesting s /\
   generationResult (updateConfig updates s) = generationResult s /\
   testResult (updateConfig updates s) = testResult s).
Proof.
  repeat split.
Qed.

(** A field the argument leaves out keeps its value; a field it gives takes
    the given one. *)
Lemma spread1_absent {A : Type} (old : A) : spread1 old None = old.
Proof. reflexivity. Qed.

Lemma spread1_present {A : Type} (old new : A) : spread1 old (Some new) = new.
Proof. reflexivity. Qed.

(** Saving a whole configuration replaces the stored one. *)
Lemma spread_whole (c c' : MCPConfig) : spread c (whole c') = c'.
Proof. destruct c'. reflexivity. Qed.

(** After a reload only the configuration is what it was. *)
Lemma rehydrate_partialize (s : AppState) :
  rehydrate (partialize s) = setConfig (config s) initialState.
Proof. reflexivity. Qed.

End StoreFacts.

(** ** The application: the stored configuration keeps a transport *)

Section Transports.

Import Store.

Lemma save_disabled_without_protocol (f : ConfigForm.State) (st : AppState) :
  protocolTypes (ConfigForm.tempConfig f) = [] ->
  ConfigForm.save_disabled f st = true.
Proof.
  intro H. unfold ConfigForm.save_disabled. rewrite H. apply orb_true_r.
Qed.

Lemma save_enabled_has_protocol (f : ConfigForm.State) (st : AppState) :
  ConfigForm.save_disabled f st = false ->
  protocolTypes (ConfigForm.tempConfig f) <> [].
Proof.
  intros H E. rewrite (save_disabled_without_protocol f st E) in H. discriminate.
Qed.

Lemma perform_has_transport (a : App.action) (s : App.State) :
  App.has_transport s -> App.has_transport (fst (App.perform a s)).
Proof.
  unfold App.has_transport. intro Inv.
  destruct a; simpl; try exact Inv.
  - destruct (App.tab_eqb t (App.activeTab s)); exact Inv.
  - destruct (ConfigForm.save_disabled (App.form s) (App.store s)) eqn:E; [exact Inv|].
    simpl. now apply save_enabled_has_protocol in E.
  - destruct (ConfigForm.reset_disabled (App.form s) (App.store s)); exact Inv.
  - destruct (Generator.parse_disabled (App.generator s)); [exact Inv|].
    destruct (Generator.parseApiSpec parsed (App.generator s)). exact Inv.
  - destruct (Generator.generate_disabled (App.generator s) (App.store s)); [exact Inv|].
    pose proof (handleGenerate_config generateMCP (App.generator s) (App.store s)) as Hc.
    destruct (Generator.handleGenerate generateMCP (App.generator s) (App.store s)).
    simpl in *. now rewrite Hc.
Qed.

Lemma step_has_transport (a : App.action) (s : App.State) :
  App.has_transport s -> App.has_transport (fst (App.step a s)).
Proof.
  intro Inv. unfold App.step.
  destruct (App.action_tab a) as [t|].
  - destruct (App.tab_eqb t (App.activeTab s)); [|exact Inv].
    now apply perform_has_transport.
  - now apply perform_has_transport.
Qed.

Lemma reachable_has_transport (s : App.State) :
  App.reachable s -> App.has_transport s.
Proof.
  induction 1 as [|a s _ IH].
  - unfold App.has_transport. simpl. discriminate.
  - now apply step_has_transport.
Qed.

Lemma reachable_run (actions : list App.action) :
  forall s, App.reachable s -> App.reachable (App.run s actions).
Proof.
  induction actions as [|a rest IH]; intros s H; simpl.
  - exact H.
  - apply IH. now constructor.
Qed.

(** The requests a step issues are those of [handleGenerate] on the current
    store. *)
Lemma step_request (a : App.action) (s : App.State) (req : Api.GenerateRequest) :
  In (GenerateMCP req) (snd (App.step a s)) ->
  req = Generator.request (App.generator s) (config (App.store s)).
Proof.
  unfold App.step.
  assert (Hp : In (GenerateMCP req) (snd (App.perform a s)) ->
               req = Generator.request (App.generator s) (config (App.store s))).
  { destruct a; simpl; try (intros []).
    - destruct (App.tab_eqb t (App.activeTab s)); intros [].
    - destruct (ConfigForm.save_disabled (App.form s) (App.store s)); simpl.
      + intros [].
      + intros [H|[]]. discriminate.
    - destruct (ConfigForm.reset_disabled (App.form s) (App.store s)); intros [].
    - unfold Generator.parseApiSpec.
      destruct (Generator.parse_disabled (App.generator s)); [intros []|].
      destruct (trim (Generator.apiSpec (App.generator s)) =? ""); simpl.
      + intros [H|[]]. discriminate.
      + destruct (bind parsed _); simpl; [intros []|].
        intros [H|[]]. discriminate.
    - destruct (Generator.generate_disabled (App.generator s) (App.store s)); [intros []|].
      pose proof (handleGenerate_request generateMCP (App.generator s) (App.store s) req) as Hr.
      destruct (Generator.handleGenerate generateMCP (App.generator s) (App.store s)).
      exact Hr. }
  destruct (App.action_tab a) as [t|]; [|exact Hp].
  destruct (App.tab_eqb t (App.activeTab s)); [exact Hp|intros []].
Qed.

(** C5: the default configuration selects [stdio]; Save is disabled while
    the edited configuration has no protocol; hence, in every state the
    application can reach, the configuration that is written to storage has
    at least one protocol, and so has every generate request. *)
Theorem C5_transport_never_empty (s : App.State) :
  App.reachable s ->
  protocolTypes defaultConfig = [stdio] /\
  (protocolTypes (ConfigForm.tempConfig (App.form s)) = [] ->
   ConfigForm.save_disabled (App.form s) (App.store s) = true /\
   fst (App.step App.ClickSave s) = s) /\
  (exists c, config' (partialize (App.store s)) = Some c /\ protocolTypes c <> []) /\
  (forall a req,
     In (GenerateMCP req) (snd (App.step a s)) ->
     Api.protocol_types (Api.config req) <> []).
Proof.
  intro Hr. pose proof (reachable_has_transport s Hr) as Inv.
  split; [reflexivity|]. split; [|split].
  - intro He. pose proof (save_disabled_without_protocol _ (App.store s) He) as Hd.
    split; [exact Hd|].
    unfold App.step. simpl. rewrite Hd.
    destruct (App.activeTab s); reflexivity.
  - exists (config (App.store s)). split; [reflexivity|exact Inv].
  - intros a req Hin. apply step_request in Hin. subst req. exact Inv.
Qed.

End Transports.

Lemma C5_transport_never_empty_witness :
  let s := App.run App.initial Examples.untick_everything in
  Store.protocolTypes (Store.config (App.store s)) = [Store.http] /\
  Store.protocolTypes (ConfigForm.tempConfig (App.form s)) = [] /\
  (exists c, Store.config' (Store.partialize (App.store s)) = Some c /\
             Store.protocolTypes c <> []) /\
  fst (App.step App.ClickSave s) = s.
Proof.
  assert (Hr : App.reachable (App.run App.initial Examples.untick_everything)).
  { apply reachable_run. constructor. }
  destruct (C5_transport_never_empty _ Hr) as (_ & Hsave & Hstored & _).
  split; [reflexivity|]. split; [reflexivity|]. split; [exact Hstored|].
  apply Hsave. reflexivity.
Defined.

(** ** The tester's status light: [checkMcpStatus] *)

Section Status.

Import Tester Description.

Variable fetch : value -> fetched.

Lemma first_entry_unique (config sc sc' : value) :
  first_entry config sc -> first_entry config sc' -> sc = sc'.
Proof.
  intros [m k rest Hm He] [m' k' rest' Hm' He']. congruence.
Qed.

Lemma first_entry_not_empty (config sc : value) :
  first_entry config sc -> no_entry config -> False.
Proof.
  intros [m k rest Hm He] [m' Hm' He']. congruence.
Qed.

(** C8 (as amended): the status depends on the first entry of the
    [mcpServers] mapping alone, and only that entry's url is fetched.
    Text that does not parse gives [unknown], and so do the document [null]
    and a first entry that is [null]; a mapping without entries, a first
    entry that is not [null] and has no truthy url, and a fetch that fails
    or answers not-ok give [inactive]; [active] is set exactly when the
    first entry has a truthy url and its fetch answers ok. *)
Theorem C8_status_from_first_server (parsed : completion value) (configText : string) :
  trim configText <> "" ->
  let r := checkMcpStatus fetch parsed configText in
  (forall e, parsed = Throw e -> r = (unknown, [])) /\
  (parsed = Normal Null -> r = (unknown, [])) /\
  (forall config, parsed = Normal config -> no_entry config -> r = (inactive, [])) /\
  (forall config, parsed = Normal config -> first_entry config Null ->
     r = (unknown, [])) /\
  (forall config sc url,
     parsed = Normal config -> first_entry config sc ->
     get sc "url" = Normal url ->
     (truthy url = false -> r = (inactive, [])) /\
     (truthy url = true ->
        snd r = [url] /\
        (fetch url = Response true -> fst r = active) /\
        (fetch url <> Response true -> fst r = inactive))) /\
  (fst r = active <->
   exists config sc url,
     parsed = Normal config /\ first_entry config sc /\
     get sc "url" = Normal url /\ truthy url = true /\
     fetch url = Response true).
Proof.
  intros Hne r.
  assert (Hr : r = match
      (config <- parsed ;;
       mcpServers <- get config "mcpServers" ;;
       let servers := or mcpServers (Object []) in
       serverEntries <- entries servers ;;
       match serverEntries with
       | [] => Normal (inactive, [])
       | (_, serverConfig) :: _ =>
           url <- get serverConfig "url" ;;
           if negb (truthy url) then Normal (inactive, [])
           else
             match fetch url with
             | Response true => Normal (active, [url])
             | Response false => Normal (inactive, [url])
             | Failed => Normal (inactive, [url])
             end
       end)
    with
    | Normal r => r
    | Throw _ => (unknown, [])
    end).
  { subst r. unfold checkMcpStatus.
    destruct (trim configText =? "") eqn:E; [|reflexivity].
    apply String.eqb_eq in E. contradiction. }
  clearbody r. subst r.
  split; [|split; [|split; [|split; [|split]]]].
  - intros e ->. reflexivity.
  - intros ->. reflexivity.
  - intros config -> [m Hm He]. simpl. rewrite Hm. simpl. rewrite He. reflexivity.
  - intros config -> [m k rest Hm He]. simpl. rewrite Hm. simpl. rewrite He. reflexivity.
  - intros config sc url -> [m k rest Hm He] Hu.
    simpl. rewrite Hm. simpl. rewrite He. simpl. rewrite Hu. simpl.
    split; [intros ->; reflexivity|].
    intros ->. simpl.
    destruct (fetch url) as [[|]|]; simpl; repeat split;
      try reflexivity; try discriminate; intro Hf; now contradiction Hf.
  - split.
    + destruct parsed as [config|]; simpl; [|discriminate].
      destruct (get config "mcpServers") as [m|] eqn:Hm; simpl; [|discriminate].
      destruct (entries (or m (Object []))) as [[|[k sc] rest]|] eqn:He; simpl;
        try discriminate.
      destruct (get sc "url") as [url|] eqn:Hu; simpl; [|discriminate].
      destruct (truthy url) eqn:Ht; simpl; [|discriminate].
      destruct (fetch url) as [[|]|] eqn:Hf; simpl; try discriminate.
      intros _. exists config, sc, url.
      repeat split; try assumption. now apply (first_entry_intro _ _ m k rest).
    + intros (config & sc & url & -> & [m k rest Hm He] & Hu & Ht & Hf).
      simpl. rewrite Hm. simpl. rewrite He. simpl. rewrite Hu. simpl.
      rewrite Ht, Hf. reflexivity.
Qed.

End Status.

Lemma C8_status_from_first_server_witness :
  let r := Tester.checkMcpStatus Examples.second_is_up
             (Normal Examples.two_servers) "{ two servers }" in
  r = (Tester.inactive, [Str "http://localhost:8001/mcp"]).
Proof.
  assert (Hne : trim "{ two servers }" <> "") by (vm_compute; discriminate).
  pose proof (C8_status_from_first_server Examples.second_is_up
                (Normal Examples.two_servers) "{ two servers }" Hne) as H.
  cbv zeta in H. destruct H as (_ & _ & _ & _ & Hfirst & _).
  assert (H1 : Description.first_entry Examples.two_servers
                 (Object [("url", Str "http://localhost:8001/mcp")])).
  { eapply Description.first_entry_intro; reflexivity. }
  destruct (Hfirst _ _ (Str "http://localhost:8001/mcp") eq_refl H1 eq_refl)
    as (_ & Hurl).
  destruct (Hurl eq_refl) as (Hsnd & _ & Hdown).
  cbv zeta. apply injective_projections.
  - exact (Hdown ltac:(discriminate)).
  - exact Hsnd.
Defined.

(** C8 as stated fails: the text parses and the first entry has no url, yet
    the status is [unknown], not [inactive]; nothing is fetched. *)
Lemma C8_counterexample :
  Description.first_entry Examples.null_server Null /\
  Tester.checkMcpStatus Examples.everything_is_up
    (Normal Examples.null_server) "{ first is null }" = (Tester.unknown, []) /\
  Tester.unknown <> Tester.inactive.
Proof.
  split; [eapply Description.first_entry_intro; reflexivity|].
  split; [reflexivity|discriminate].
Qed.

(** ** Decoding the archive: [downloadZip] *)

Section Download.

Import Api Description.

Lemma store_at_length (pre : list Z) (v x : Z) (rest : list Z) :
  store (List.length pre) v (pre ++ x :: rest) = (pre ++ v :: rest)%list.
Proof.
  induction pre as [|b pre IH]; simpl; [reflexivity|]. now rewrite IH.
Qed.

(** The loop writes the elements one after the other, left to right. *)
Lemma fill_in_order (g : nat -> Z) (m : nat) :
  forall (a : nat) (pre rest : list Z),
    List.length pre = a ->
    fold_left (fun bytes i => store (Nat.div2 i) (g i) bytes)
      (map (fun k => 2 * k) (seq a m))
      (pre ++ repeat 0%Z m ++ rest)%list
    = (pre ++ map (fun k => g (2 * k)) (seq a m) ++ rest)%list.
Proof.
  induction m as [|m IH]; intros a pre rest Hlen; [reflexivity|].
  cbn [seq map fold_left repeat app].
  rewrite Nat.div2_double, <- Hlen, store_at_length.
  replace (pre ++ g (2 * List.length pre) :: repeat 0%Z m ++ rest)%list
    with ((pre ++ [g (2 * List.length pre)]) ++ repeat 0%Z m ++ rest)%list
    by (now rewrite <- app_assoc).
  rewrite IH by (rewrite length_app; simpl; lia).
  now rewrite <- app_assoc.
Qed.

Lemma hex_bytes_even (zipData : string) (n : nat) :
  String.length zipData = 2 * n ->
  hex_bytes zipData =
    map (fun k => ToUint8 (parseInt (substr2 (2 * k) zipData) 16)) (seq 0 n).
Proof.
  intro Hlen. unfold hex_bytes, loop_indices. rewrite Hlen.
  replace (Nat.div2 (S (2 * n))) with n
    by (symmetry; apply (Nat.div2_succ_double n)).
  rewrite Nat.div2_double.
  pose proof (fill_in_order
                (fun i => ToUint8 (parseInt (substr2 i zipData) 16)) n 0 [] []
                eq_refl) as H.
  simpl app in H. rewrite !app_nil_r in H. exact H.
Qed.

Lemma substr2_get (s : string) :
  forall i c1 c2,
    String.get i s = Some c1 ->
    String.get (S i) s = Some c2 ->
    substr2 i s = String c1 (String c2 EmptyString).
Proof.
  unfold substr2.
  induction s as [|c rest IH]; intros [|i] c1 c2 H1 H2; simpl in *; try discriminate.
  - injection H1 as ->. destruct rest as [|c' rest']; simpl in *; [discriminate|].
    injection H2 as ->. destruct rest'; reflexivity.
  - now apply IH.
Qed.

Lemma all_chars_get (p : ascii -> bool) (s : string) :
  all_chars p s = true ->
  forall i c, String.get i s = Some c -> p c = true.
Proof.
  induction s as [|c' rest IH]; intros H [|i] c Hg; simpl in *; try discriminate.
  - injection Hg as <-. now apply andb_prop in H.
  - apply andb_prop in H as [_ H]. now apply (IH H i).
Qed.

Lemma isHexDigit_cases (c : ascii) :
  isHexDigit c = true ->
  In c (list_ascii_of_string "0123456789abcdefABCDEF").
Proof.
  destruct c as [[] [] [] [] [] [] [] []]; intro H;
    try discriminate H; clear H; simpl;
    repeat (try (left; reflexivity); right).
Qed.

(** Two hexadecimal digits are read whole: no white space, sign or [0x]
    prefix gets in the way, and the value fits a byte. *)
Lemma parseInt_hex_pair (c1 c2 : ascii) :
  isHexDigit c1 = true ->
  isHexDigit c2 = true ->
  parseInt (String c1 (String c2 EmptyString)) 16
    = Some (16 * hex_value c1 + hex_value c2)%Z /\
  ToUint8 (parseInt (String c1 (String c2 EmptyString)) 16)
    = (16 * hex_value c1 + hex_value c2)%Z.
Proof.
  intros H1 H2.
  apply isHexDigit_cases in H1. apply isHexDigit_cases in H2.
  simpl in H1, H2.
  repeat (destruct H1 as [<-|H1]; [|]); try contradiction;
    repeat (destruct H2 as [<-|H2]; [|]); try contradiction;
    split; vm_compute; reflexivity.
Qed.

(** C10: on a string of [2n] hexadecimal digits [downloadZip] builds [n]
    bytes, the [i]-th being the value in base 16 of the characters at [2i]
    and [2i+1], and hands them to the browser as a blob of type
    [application/zip] under the given file name. *)
Theorem C10_hex_decoding (zipData filename : string) (n : nat) :
  String.length zipData = 2 * n ->
  all_chars isHexDigit zipData = true ->
  let d := downloadZip zipData filename in
  List.length (blobParts (href d)) = n /\
  (forall i c1 c2,
     String.get (2 * i) zipData = Some c1 ->
     String.get (2 * i + 1) zipData = Some c2 ->
     nth_error (blobParts (href d)) i
       = Some (16 * hex_value c1 + hex_value c2)%Z /\
     parseInt (String c1 (String c2 EmptyString)) 16
       = Some (16 * hex_value c1 + hex_value c2)%Z) /\
  type (href d) = "application/zip" /\
  download d = filename.
Proof.
  intros Hlen Hhex d. subst d. unfold downloadZip. cbn [href blobParts type download].
  rewrite (hex_bytes_even zipData n Hlen).
  split; [now rewrite length_map, length_seq|].
  split; [|split; reflexivity].
  intros i c1 c2 H1 H2.
  assert (Hi : i < n).
  { assert (2 * i + 1 < String.length zipData); [|lia].
    clear -H2. revert H2. generalize (2 * i + 1). induction zipData as [|c s IH]; intros [|k] H;
      simpl in *; try discriminate; [lia|]. apply IH in H. lia. }
  pose proof (all_chars_get _ _ Hhex _ _ H1) as Hc1.
  pose proof (all_chars_get _ _ Hhex _ _ H2) as Hc2.
  destruct (parseInt_hex_pair c1 c2 Hc1 Hc2) as [Hp Hb].
  split; [|exact Hp].
  rewrite nth_error_map, nth_error_seq.
  replace (i <? n)%nat with true by (symmetry; now apply Nat.ltb_lt).
  simpl. rewrite Nat.add_0_r.
  replace (2 * i + 1) with (S (2 * i)) in H2 by lia.
  replace (i + i) with (2 * i) by lia.
  now rewrite (substr2_get zipData _ _ _ H1 H2), Hb.
Qed.

End Download.

Lemma C10_hex_decoding_witness :
  let d := Api.downloadZip "504b0506fF" Api.default_filename in
  Api.blobParts (Api.href d) = [80; 75; 5; 6; 255]%Z /\
  List.length (Api.blobParts (Api.href d)) = 5 /\
  nth_error (Api.blobParts (Api.href d)) 4 = Some 255%Z.
Proof.
  pose proof (C10_hex_decoding "504b0506fF" Api.default_filename 5 eq_refl eq_refl) as H.
  cbv zeta in H. destruct H as (Hlen & Hbytes & _).
  cbv zeta. split; [reflexivity|]. split; [exact Hlen|].
  exact (proj1 (Hbytes 4 "f"%char "F"%char eq_refl eq_refl)).
Defined.

(* ------------------------------------------------------------------ *)
(** * Further properties of the same code                              *)
(* ------------------------------------------------------------------ *)

(** ** Blank text and slugs *)

Section Texts.

Import Description Encoding.

Lemma trimEnd_blank (s : string) :
  trimEnd s = "" <-> all_chars isWhiteSpace s = true.
Proof.
  induction s as [|c rest IH]; simpl; [tauto|].
  destruct (trimEnd rest) eqn:E.
  - destruct (isWhiteSpace c); simpl.
    + split; intros _; [now apply IH|reflexivity].
    + split; discriminate.
  - split; [discriminate|].
    intro H. apply andb_prop in H as [_ H]. apply IH in H. discriminate.
Qed.

Lemma trimStart_blank (s : string) :
  all_chars isWhiteSpace (trimStart s) = all_chars isWhiteSpace s.
Proof.
  induction s as [|c rest IH]; simpl; [reflexivity|].
  destruct (isWhiteSpace c) eqn:E; simpl; [exact IH|now rewrite E].
Qed.

(** [trim] gives the empty string exactly on texts made of white space
    only: this is when the guards [!text.trim()] fire. *)
Lemma trim_blank (s : string) :
  trim s = "" <-> all_chars isWhiteSpace s = true.
Proof.
  unfold trim. rewrite trimEnd_blank, trimStart_blank. tauto.
Qed.

Lemma trim_eqb_blank (s : string) :
  (trim s =? "") = all_chars isWhiteSpace s.
Proof.
  destruct (all_chars isWhiteSpace s) eqn:E.
  - apply String.eqb_eq. now apply trim_blank.
  - apply String.eqb_neq. intro H. apply trim_blank in H. congruence.
Qed.

Lemma map_chars_length (f : ascii -> ascii) (s : string) :
  String.length (map_chars f s) = String.length s.
Proof. induction s; simpl; congruence. Qed.

(** X1: the slug of a path has the length of the path and consists of
    letters, digits and underscores only; a text that already consists of
    such characters is its own slug, so slugging twice changes nothing. *)
Theorem slug_shape (p : string) :
  String.length (replace_non_alnum p) = String.length p /\
  all_chars isSlugChar (replace_non_alnum p) = true /\
  (all_chars isSlugChar p = true -> replace_non_alnum p = p) /\
  replace_non_alnum (replace_non_alnum p) = replace_non_alnum p.
Proof.
  assert (Hshape : forall q, all_chars isSlugChar (replace_non_alnum q) = true).
  { unfold replace_non_alnum.
    induction q as [|c rest IH]; simpl; [reflexivity|].
    rewrite IH, andb_true_r. unfold isSlugChar.
    destruct (isAlnum c) eqn:E; [now rewrite E|reflexivity]. }
  assert (Hfix : forall q, all_chars isSlugChar q = true -> replace_non_alnum q = q).
  { unfold replace_non_alnum.
    induction q as [|c rest IH]; simpl; [reflexivity|].
    intro H. apply andb_prop in H as [Hc Hrest].
    rewrite (IH Hrest). f_equal.
    unfold isSlugChar in Hc. destruct (isAlnum c) eqn:E; [reflexivity|].
    simpl in Hc. apply N.eqb_eq in Hc.
    unfold code in Hc. rewrite <- (ascii_N_embedding c), Hc. reflexivity. }
  split; [apply map_chars_length|]. split; [apply Hshape|].
  split; [apply Hfix|]. apply Hfix, Hshape.
Qed.

Lemma slug_shape_witness :
  replace_non_alnum "pets_1" = "pets_1" /\
  replace_non_alnum "/pets/{petId}" = "_pets__petId_".
Proof.
  split; [|reflexivity].
  apply (proj1 (proj2 (proj2 (slug_shape "pets_1")))). reflexivity.
Defined.

End Texts.

(** ** Loading a description *)

Section Loading.

Import Generator Description Encoding.

Lemma Forall2_In_l {A B : Type} (R : A -> B -> Prop) (l : list A) (l' : list B) (a : A) :
  Forall2 R l l' -> In a l -> exists b, In b l' /\ R a b.
Proof.
  intro H. induction H as [|x y l l' Hxy _ IH]; intros Hin; [contradiction|].
  destruct Hin as [<-|Hin].
  - exists y. split; [now left|assumption].
  - destruct (IH Hin) as (b & Hb & Hab). exists b. split; [now right|assumption].
Qed.

Lemma Forall2_Forall_r {A B : Type} (R : A -> B -> Prop) (P : B -> Prop)
    (l : list A) (l' : list B) :
  (forall a b, R a b -> P b) -> Forall2 R l l' -> Forall P l'.
Proof. intros HRP H. induction H; constructor; eauto. Qed.

Lemma filter_all {A : Type} (f : A -> bool) (l : list A) :
  Forall (fun a => f a = true) l -> filter f l = l.
Proof.
  induction 1 as [|a l Ha _ IH]; simpl; [reflexivity|]. now rewrite Ha, IH.
Qed.

(** X2: a successful load builds one tool per operation, identified by the
    method key, an underscore and the path, and every tool starts out
    selected. *)
Theorem loaded_tools_all_selected (spec : value) (tools : list ParsedTool) :
  parseTools spec = Normal tools ->
  exists ops,
    operations spec = Normal ops /\
    List.length tools = List.length ops /\
    map id tools = map (fun o => op_method o ++ "_" ++ op_path o) ops /\
    filter selected tools = tools.
Proof.
  intro H. apply parseTools_spec in H as (ops & Hops & Hall).
  exists ops. split; [assumption|]. split; [|split].
  - symmetry. now apply Forall2_length in Hall.
  - symmetry. apply Forall2_map_eq. eapply Forall2_weaken; [|exact Hall].
    intros o t Hot.
    apply made_from_inv in Hot as (? & ? & ? & _ & _ & _ & Hid & _). now rewrite Hid.
  - apply filter_all.
    eapply Forall2_Forall_r; [|exact Hall].
    intros o t Hot.
    now apply made_from_inv in Hot as (? & ? & ? & _ & _ & _ & _ & _ & _ & _ & _ & Hs).
Qed.

Lemma loaded_tools_all_selected_witness :
  exists ops,
    operations Examples.petstore = Normal ops /\
    List.length Examples.petstore_tools = List.length ops /\
    map id Examples.petstore_tools
      = map (fun o => op_method o ++ "_" ++ op_path o) ops /\
    filter selected Examples.petstore_tools = Examples.petstore_tools.
Proof.
  apply (loaded_tools_all_selected Examples.petstore). reflexivity.
Defined.

Lemma parseTools_null_operation (spec : value) (ops : list operation) (o : operation) :
  operations spec = Normal ops ->
  In o ops ->
  op_body o = Null ->
  exists e, parseTools spec = Throw e.
Proof.
  intros Hops Hin Hnull.
  destruct (parseTools spec) as [tools|e] eqn:E; [|now exists e].
  apply parseTools_spec in E as (ops' & Hops' & Hall).
  assert (ops' = ops) by congruence. subst ops'.
  destruct (Forall2_In_l _ _ _ _ Hall Hin) as (t & _ & Hot).
  unfold made_from in Hot. rewrite Hnull in Hot. discriminate Hot.
Qed.

(** X3: one [null] in the place of an operation spoils the whole load: no
    tool is taken over, the list that was shown before stays, and the user
    is told that the JSON is invalid although it parsed. *)
Theorem null_operation_spoils_load (spec : value) (ops : list operation)
    (o : operation) (st : State) :
  operations spec = Normal ops ->
  In o ops ->
  op_body o = Null ->
  trim (apiSpec st) <> "" ->
  parseApiSpec (Normal spec) st =
    (st, [Alert "Invalid JSON in API specification. Please check your JSON syntax."]).
Proof.
  intros Hops Hin Hnull Hne.
  destruct (parseTools_null_operation spec ops o Hops Hin Hnull) as [e He].
  unfold parseApiSpec.
  destruct (trim (apiSpec st) =? "") eqn:E.
  - apply String.eqb_eq in E. contradiction.
  - simpl. now rewrite He.
Qed.

Lemma null_operation_spoils_load_witness :
  parseApiSpec (Normal MoreExamples.null_operation_spec) Examples.all_selected =
    (Examples.all_selected,
     [Alert "Invalid JSON in API specification. Please check your JSON syntax."]).
Proof.
  apply (null_operation_spoils_load MoreExamples.null_operation_spec
           [("/pets", "get", Object []); ("/pets", "post", Null)]
           ("/pets", "post", Null)).
  - reflexivity.
  - right. left. reflexivity.
  - reflexivity.
  - vm_compute. discriminate.
Defined.

(** X4: text made of white space only is never parsed: [parseApiSpec]
    alerts and leaves the form as it is, whatever [JSON.parse] would say;
    on any other text a description that parses and loads replaces the
    list and shows the selection. *)
Theorem blank_spec_not_parsed (parsed : completion value) (st : State) :
  (all_chars isWhiteSpace (apiSpec st) = true ->
   parseApiSpec parsed st =
     (st, [Alert "Please provide an API specification first"])) /\
  (all_chars isWhiteSpace (apiSpec st) = false ->
   forall spec tools,
     parsed = Normal spec -> parseTools spec = Normal tools ->
     parseApiSpec parsed st =
       ({| apiSpec := apiSpec st; systemPrompt := systemPrompt st;
           baseUrl := baseUrl st; parsedTools := tools;
           showToolSelection := true |}, [])).
Proof.
  unfold parseApiSpec. rewrite trim_eqb_blank. split.
  - intros ->. reflexivity.
  - intros -> spec tools -> Htools. simpl. now rewrite Htools.
Qed.

Lemma blank_spec_not_parsed_witness :
  let st := setApiSpec "   " Examples.all_selected in
  parseApiSpec (Normal Examples.petstore) st =
    (st, [Alert "Please provide an API specification first"]).
Proof.
  apply (proj1 (blank_spec_not_parsed (Normal Examples.petstore)
                  (setApiSpec "   " Examples.all_selected))).
  reflexivity.
Defined.

Lemma loaded_ids (spec : value) (tools : list ParsedTool) (ops : list operation) :
  parseTools spec = Normal tools ->
  operations spec = Normal ops ->
  map id tools = map (fun o => op_method o ++ "_" ++ op_path o) ops.
Proof.
  intros H Hops. apply parseTools_spec in H as (ops' & Hops' & Hall).
  assert (ops' = ops) by congruence. subst ops'.
  symmetry. apply Forall2_map_eq. eapply Forall2_weaken; [|exact Hall].
  intros o t Hot.
  apply made_from_inv in Hot as (? & ? & ? & _ & _ & _ & Hid & _). now rewrite Hid.
Qed.

Lemma id_split (m1 : string) :
  forall m2 p1 p2,
    rooted p1 = true -> rooted p2 = true ->
    all_chars no_slash m1 = true -> all_chars no_slash m2 = true ->
    m1 ++ "_" ++ p1 = m2 ++ "_" ++ p2 ->
    m1 = m2 /\ p1 = p2.
Proof.
  induction m1 as [|c m1 IH]; intros [|c2 m2] p1 p2 R1 R2 N1 N2 H; simpl in *.
  - injection H as ->. now split.
  - injection H as <- H. subst p1.
    destruct m2 as [|c3 m3]; simpl in *; [discriminate R1|].
    unfold no_slash in N2. rewrite R1 in N2. simpl in N2. discriminate N2.
  - injection H as -> H. subst p2.
    destruct m1 as [|c3 m3]; simpl in *; [discriminate R2|].
    unfold no_slash in N1. rewrite R2 in N1. simpl in N1. discriminate N1.
  - injection H as -> H.
    apply andb_prop in N1 as [_ N1]. apply andb_prop in N2 as [_ N2].
    destruct (IH m2 p1 p2 R1 R2 N1 N2 H) as [-> ->]. now split.
Qed.

(** X5: when every path begins with a slash and no method key contains
    one, operations with different (path, method) pairs get different tool
    ids, so an id names one tool. *)
Theorem tool_ids_distinct (spec : value) (tools : list ParsedTool)
    (ops : list operation) :
  parseTools spec = Normal tools ->
  operations spec = Normal ops ->
  NoDup (map (fun o => (op_path o, op_method o)) ops) ->
  Forall (fun o => rooted (op_path o) = true /\
                   all_chars no_slash (op_method o) = true) ops ->
  NoDup (map id tools).
Proof.
  intros Htools Hops Hnd Hshape.
  rewrite (loaded_ids spec tools ops Htools Hops).
  rewrite <- (map_map (fun o => (op_path o, op_method o))
                      (fun pm => snd pm ++ "_" ++ fst pm)).
  apply NoDup_map_NoDup_ForallPairs; [|exact Hnd].
  intros a b Ha Hb Hab.
  apply in_map_iff in Ha as (oa & <- & Hoa).
  apply in_map_iff in Hb as (ob & <- & Hob).
  rewrite Forall_forall in Hshape.
  destruct (Hshape _ Hoa) as [Ra Na]. destruct (Hshape _ Hob) as [Rb Nb].
  simpl in Hab. destruct (id_split _ _ _ _ Ra Rb Na Nb Hab) as [Hm Hp].
  simpl. now rewrite Hm, Hp.
Qed.

Lemma tool_ids_distinct_witness :
  NoDup (map id Examples.petstore_tools).
Proof.
  apply (tool_ids_distinct Examples.petstore Examples.petstore_tools
           [("/pets", "get", Object [("operationId", Str "listPets");
                                     ("summary", Str "List all pets")]);
            ("/pets", "post", Object [("description", Str "Create a pet")]);
            ("/pets/{petId}", "get", Object [])]).
  - reflexivity.
  - reflexivity.
  - simpl. repeat constructor; simpl; intuition discriminate.
  - repeat constructor.
Defined.

End Loading.

(** ** Selecting tools and generating *)

Section Selecting.

Import Generator Description.

Variable generateMCP : Api.GenerateRequest -> Api.settled Api.GenerateResponse.

(** X6: ticking the same check box twice brings the form back to where it
    was; a tick changes no tool's id, name, description, method or path,
    and flips the selection of exactly the tools that carry the id. *)
Theorem toggle_twice (toolId : string) (st : State) :
  toggleToolSelection toolId (toggleToolSelection toolId st) = st /\
  map id (parsedTools (toggleToolSelection toolId st)) = map id (parsedTools st) /\
  map name (parsedTools (toggleToolSelection toolId st)) = map name (parsedTools st) /\
  map description (parsedTools (toggleToolSelection toolId st))
    = map description (parsedTools st) /\
  map method (parsedTools (toggleToolSelection toolId st)) = map method (parsedTools st) /\
  map path (parsedTools (toggleToolSelection toolId st)) = map path (parsedTools st) /\
  map selected (parsedTools (toggleToolSelection toolId st)) =
    map (fun t => if id t =? toolId then negb (selected t) else selected t)
        (parsedTools st).
Proof.
  split; [|split; [|split; [|split; [|split; [|split]]]]];
    try (unfold toggleToolSelection; simpl; rewrite map_map; apply map_ext;
         intro t; now destruct (id t =? toolId)).
  - destruct st as [a sp b tools show]. unfold toggleToolSelection, setParsedTools.
    simpl. f_equal. rewrite map_map. rewrite <- (map_id tools) at 2.
    apply map_ext. intro t. destruct t as [i n d m p sel].
    destruct (i =? toolId) eqn:E; simpl; rewrite E; simpl; rewrite ?E;
      [|reflexivity].
    unfold with_selected. simpl. now rewrite negb_involutive.
Qed.

Lemma filter_selected_none (l : list ParsedTool) :
  filter selected (map (with_selected false) l) = [].
Proof. induction l; simpl; auto. Qed.

Lemma filter_selected_every (l : list ParsedTool) :
  filter selected (map (with_selected true) l) = map (with_selected true) l.
Proof. induction l; simpl; congruence. Qed.

(** When [handleGenerate] issues its request. *)
Lemma handleGenerate_issues (st : State) (store : Store.AppState) :
  In (GenerateMCP (request st (Store.config store)))
     (snd (handleGenerate generateMCP st store)) <->
  all_chars isWhiteSpace (apiSpec st) = false /\
  all_chars isWhiteSpace (systemPrompt st) = false /\
  (showToolSelection st = true -> filter selected (parsedTools st) <> []).
Proof.
  unfold handleGenerate. rewrite !trim_eqb_blank.
  destruct (all_chars isWhiteSpace (apiSpec st)); simpl.
  { split; [intros [H|[]]; discriminate|intros [H _]; discriminate]. }
  destruct (all_chars isWhiteSpace (systemPrompt st)); simpl.
  { split; [intros [H|[]]; discriminate|intros (_ & H & _); discriminate]. }
  destruct (showToolSelection st); simpl.
  - destruct (filter selected (parsedTools st)) as [|t l] eqn:E; simpl.
    + split; [intros [H|[]]; discriminate|].
      intros (_ & _ & H). now contradiction H.
    + split; [intros _; repeat split; discriminate|].
      intros _. destruct (generateMCP _); simpl; now left.
  - split; [intros _; repeat split; discriminate|].
    intros _. destruct (generateMCP _); simpl; now left.
Qed.

(** X7: [handleGenerate] issues its request exactly when neither text is
    blank and, if the selection is shown, some tool is selected; the request
    then lists the ids of the selected tools in the order of the list, and
    lists nothing when the selection was never shown. *)
Theorem generate_request_sent (st : State) (store : Store.AppState) :
  ((exists req, In (GenerateMCP req) (snd (handleGenerate generateMCP st store))) <->
   all_chars isWhiteSpace (apiSpec st) = false /\
   all_chars isWhiteSpace (systemPrompt st) = false /\
   (showToolSelection st = true -> exists t, In t (parsedTools st) /\ selected t = true)) /\
  (forall req,
     In (GenerateMCP req) (snd (handleGenerate generateMCP st store)) ->
     Api.api_spec req = apiSpec st /\
     Api.system_prompt req = systemPrompt st /\
     Api.selected_tools req =
       if showToolSelection st
       then Some (map id (filter selected (parsedTools st)))
       else None).
Proof.
  split.
  - split.
    + intros [req Hin].
      pose proof (handleGenerate_request generateMCP st store req Hin) as ->.
      apply handleGenerate_issues in Hin as (H1 & H2 & H3).
      repeat split; try assumption.
      intro Hshow. specialize (H3 Hshow).
      destruct (filter selected (parsedTools st)) as [|t l] eqn:E; [now contradiction H3|].
      assert (Ht : In t (filter selected (parsedTools st))) by (rewrite E; now left).
      apply filter_In in Ht. now exists t.
    + intros (H1 & H2 & H3). exists (request st (Store.config store)).
      apply handleGenerate_issues. repeat split; try assumption.
      intros Hshow E. destruct (H3 Hshow) as (t & Hin & Hsel).
      assert (Ht : In t (filter selected (parsedTools st))) by (now apply filter_In).
      rewrite E in Ht. contradiction.
  - intros req Hin.
    apply handleGenerate_request in Hin. subst req. repeat split.
Qed.

(** X8: after Deselect All no request can be issued while the selection is
    shown; after Select All an issued request lists the id of every tool. *)
Theorem select_all_deselect_all (st : State) (store : Store.AppState) :
  showToolSelection st = true ->
  (forall req,
     ~ In (GenerateMCP req)
          (snd (handleGenerate generateMCP (deselectAllTools st) store))) /\
  (forall req,
     In (GenerateMCP req)
        (snd (handleGenerate generateMCP (selectAllTools st) store)) ->
     Api.selected_tools req = Some (map id (parsedTools st))).
Proof.
  intro Hshow. split.
  - intros req Hin.
    pose proof (handleGenerate_request _ _ _ _ Hin) as ->.
    apply handleGenerate_issues in Hin as (_ & _ & H).
    apply H; [exact Hshow|]. simpl. apply filter_selected_none.
  - intros req Hin.
    apply handleGenerate_request in Hin. subst req.
    unfold request. cbn [Api.selected_tools].
    change (showToolSelection (selectAllTools st)) with (showToolSelection st).
    rewrite Hshow. simpl. rewrite filter_selected_every, map_map. reflexivity.
Qed.

(** X9: [handleGenerate] touches two fields of the store and no other:
    [isGenerating], which is false again whenever a request was issued, and
    [generationResult], which changes only when the request is fulfilled
    and then holds the data that is also handed to [downloadZip]; a refused
    or rejected generation keeps the earlier result, and nothing is
    downloaded. *)
Theorem generate_store_frame (st : State) (store : Store.AppState) :
  let store' := fst (handleGenerate generateMCP st store) in
  let effects := snd (handleGenerate generateMCP st store) in
  Store.config store' = Store.config store /\
  Store.isTesting store' = Store.isTesting store /\
  Store.testResult store' = Store.testResult store /\
  ((forall req, ~ In (GenerateMCP req) effects) -> store' = store) /\
  ((exists req, In (GenerateMCP req) effects) -> Store.isGenerating store' = false) /\
  (forall zipData,
     In (DownloadZip zipData) effects <->
     exists response,
       generateMCP (request st (Store.config store)) = Api.Fulfilled response /\
       In (GenerateMCP (request st (Store.config store))) effects /\
       zipData = Api.zip_data response) /\
  (forall zipData,
     In (DownloadZip zipData) effects ->
     Store.generationResult store' = Some zipData) /\
  ((forall zipData, ~ In (DownloadZip zipData) effects) ->
   Store.generationResult store' = Store.generationResult store).
Proof.
  unfold handleGenerate.
  destruct ((trim (apiSpec st) =? "") || (trim (systemPrompt st) =? "")).
  { simpl. repeat split; try reflexivity.
    - intros [req [H|[]]]. discriminate.
    - intros [H|[]]. discriminate.
    - intros (r & _ & [H|[]] & _). discriminate.
    - intros z [H|[]]. discriminate. }
  destruct (showToolSelection st
            && (List.length (filter selected (parsedTools st)) =? 0)%nat).
  { simpl. repeat split; try reflexivity.
    - intros [req [H|[]]]. discriminate.
    - intros [H|[]]. discriminate.
    - intros (r & _ & [H|[]] & _). discriminate.
    - intros z [H|[]]. discriminate. }
  destruct (generateMCP (request st (Store.config store))) as [response|message];
    simpl; repeat split; try reflexivity.
  - intro H. exfalso. apply (H (request st (Store.config store))). now left.
  - intros [H|[H|[]]]; [discriminate|]. injection H as <-.
    exists response. repeat split. now left.
  - intros (r & Hr & _ & ->). injection Hr as <-. right. now left.
  - intros z [H|[H|[]]]; [discriminate|]. now injection H as <-.
  - intro H. exfalso. apply (H (Api.zip_data response)). right. now left.
  - intro H. exfalso. apply (H (request st (Store.config store))). now left.
  - intros [H|[H|[H|[]]]]; discriminate.
  - intros (r & Hr & _). discriminate.
  - intros z [H|[H|[H|[]]]]; discriminate.
Qed.

End Selecting.

Lemma select_all_deselect_all_witness :
  (forall req,
     ~ In (GenerateMCP req)
          (snd (Generator.handleGenerate Examples.always_ok
                  (Generator.deselectAllTools Examples.all_selected)
                  Store.initialState))) /\
  (forall req,
     In (GenerateMCP req)
        (snd (Generator.handleGenerate Examples.always_ok
                (Generator.selectAllTools Examples.nothing_selected)
                Store.initialState)) ->
     Api.selected_tools req =
       Some ["get_/pets"; "post_/pets"; "get_/pets/{petId}"]).
Proof.
  split.
  - apply (proj1 (select_all_deselect_all Examples.always_ok
                    Examples.all_selected Store.initialState eq_refl)).
  - apply (proj2 (select_all_deselect_all Examples.always_ok
                    Examples.nothing_selected Store.initialState eq_refl)).
Defined.

Lemma generate_request_sent_witness :
  exists req,
    In (GenerateMCP req)
       (snd (Generator.handleGenerate Examples.always_ok Examples.all_selected
               Store.initialState)) /\
    Api.selected_tools req =
      Some ["get_/pets"; "post_/pets"; "get_/pets/{petId}"].
Proof.
  destruct (generate_request_sent Examples.always_ok Examples.all_selected
              Store.initialState) as [Hiff Hreq].
  destruct (proj2 Hiff) as [req Hin].
  - split; [reflexivity|]. split; [reflexivity|].
    intros _. eexists. split; [left; reflexivity|reflexivity].
  - exists req. split; [exact Hin|].
    destruct (Hreq req Hin) as (_ & _ & Hsel). exact Hsel.
Defined.

Lemma generate_store_frame_witness :
  let store := Store.setGenerationResult (Some "504b") Store.initialState in
  Store.generationResult
    (fst (Generator.handleGenerate MoreExamples.always_fails
            Examples.all_selected store)) = Some "504b" /\
  Store.isGenerating
    (fst (Generator.handleGenerate MoreExamples.always_fails
            Examples.all_selected store)) = false.
Proof.
  pose proof (generate_store_frame MoreExamples.always_fails Examples.all_selected
                (Store.setGenerationResult (Some "504b") Store.initialState)) as H.
  cbv zeta in H. destruct H as (_ & _ & _ & _ & Hgen & _ & _ & Hkeep).
  cbv zeta. split.
  - rewrite Hkeep; [reflexivity|].
    intros z [H|[H|[H|[]]]]; discriminate.
  - apply Hgen. eexists. left. reflexivity.
Defined.

(** ** The configuration form *)

Section Form.

Import Store ConfigForm.

Lemma protocol_eqb_eq (p q : protocol) : protocol_eqb p q = true <-> p = q.
Proof. destruct p, q; simpl; split; intro H; try reflexivity; discriminate. Qed.

Lemma list_eqb_eq (l1 : list protocol) :
  forall l2, list_eqb protocol_eqb l1 l2 = true <-> l1 = l2.
Proof.
  induction l1 as [|a l1 IH]; intros [|b l2]; simpl; split; intro H;
    try reflexivity; try discriminate.
  - apply andb_prop in H as [Hab Hl]. apply protocol_eqb_eq in Hab.
    apply IH in Hl. congruence.
  - injection H as -> ->. apply andb_true_intro. split.
    + now apply protocol_eqb_eq.
    + now apply IH.
Qed.

(** The comparison of the two JSON texts decides equality of the two
    configurations. *)
Lemma same_json_eq (a b : MCPConfig) : same_json a b = true <-> a = b.
Proof.
  unfold same_json. split.
  - destruct a as [k n l d v au bu], b as [k' n' l' d' v' au' bu']. simpl.
    intro H.
    apply andb_prop in H as [H H7]. apply andb_prop in H as [H H6].
    apply andb_prop in H as [H H5]. apply andb_prop in H as [H H4].
    apply andb_prop in H as [H H3]. apply andb_prop in H as [H1 H2].
    apply String.eqb_eq in H1, H2, H4, H5, H6, H7.
    apply list_eqb_eq in H3. congruence.
  - intros <-. rewrite !String.eqb_refl. simpl.
    now rewrite (proj2 (list_eqb_eq (protocolTypes a) (protocolTypes a)) eq_refl).
Qed.

(** X10: Save can be clicked exactly when the edited configuration differs
    from the stored one and selects a protocol; Reset exactly when it
    differs. *)
Theorem buttons_enabled (st : State) (store : AppState) :
  (save_disabled st store = false <->
   tempConfig st <> config store /\ protocolTypes (tempConfig st) <> []) /\
  (reset_disabled st store = false <-> tempConfig st <> config store).
Proof.
  unfold save_disabled, reset_disabled, hasChanges.
  destruct (same_json (tempConfig st) (config store)) eqn:E; simpl.
  - apply same_json_eq in E. split; split; try discriminate.
    + intros [H _]. contradiction.
    + intro H. contradiction.
  - assert (Hne : tempConfig st <> config store).
    { intro H. apply same_json_eq in H. congruence. }
    split; [|tauto].
    destruct (protocolTypes (tempConfig st)); simpl; split; try discriminate.
    + intros [_ H]. now contradiction H.
    + intros _. split; [assumption|discriminate].
    + reflexivity.
Qed.

(** X11: Save stores the edited configuration whole and leaves the rest of
    the store alone; right after Save, and right after Reset, the form
    shows the stored configuration and both buttons are disabled. *)
Theorem save_and_reset_settle (st : State) (store : AppState) :
  (let '(st', store', _) := handleSave st store in
   config store' = tempConfig st /\
   tempConfig st' = tempConfig st /\
   isGenerating store' = isGenerating store /\
   isTesting store' = isTesting store /\
   generationResult store' = generationResult store /\
   testResult store' = testResult store /\
   save_disabled st' store' = true /\
   reset_disabled st' store' = true) /\
  (tempConfig (handleReset st store) = config store /\
   showApiKey (handleReset st store) = showApiKey st /\
   save_disabled (handleReset st store) store = true /\
   reset_disabled (handleReset st store) store = true).
Proof.
  assert (Hrefl : forall c, same_json c c = true) by (intro c; now apply same_json_eq).
  unfold handleSave, handleReset, save_disabled, reset_disabled, hasChanges.
  simpl. rewrite !spread_whole, !Hrefl. simpl. repeat split.
Qed.

Lemma includes_app (p : protocol) (l1 l2 : list protocol) :
  includes p (l1 ++ l2) = includes p l1 || includes p l2.
Proof. apply existsb_app. Qed.

Lemma includes_filter (p q : protocol) (l : list protocol) :
  includes p (filter (fun r => negb (protocol_eqb r q)) l) =
  includes p l && negb (protocol_eqb p q).
Proof.
  induction l as [|r l IH]; simpl; [reflexivity|].
  destruct (protocol_eqb r q) eqn:E; simpl.
  - rewrite IH. apply protocol_eqb_eq in E. subst r.
    destruct (protocol_eqb p q); simpl; [now rewrite andb_false_r|reflexivity].
  - rewrite IH. destruct (protocol_eqb p r) eqn:E2; simpl; [|reflexivity].
    apply protocol_eqb_eq in E2. subst r. now rewrite E.
Qed.

Lemma filter_absent (p : protocol) (l : list protocol) :
  includes p l = false ->
  filter (fun r => negb (protocol_eqb r p)) l = l.
Proof.
  induction l as [|r l IH]; simpl; [reflexivity|].
  intro H. apply orb_false_elim in H as [Hr Hl].
  assert (Hrp : protocol_eqb r p = false) by (destruct p, r; simpl in *; congruence).
  rewrite Hrp. simpl. now rewrite IH.
Qed.

(** X12: after a protocol check box changes, the edited list contains the
    protocol exactly when the box is ticked, every other protocol is in the
    list exactly when it was before, and no other field of the edited
    configuration changes; ticking a protocol that was not in the list and
    unticking it again gives the list back. *)
Theorem protocol_box (p : protocol) (checked : bool) (prev : MCPConfig) :
  includes p (protocolTypes (changeProtocol p checked prev)) = checked /\
  (forall q, q <> p ->
     includes q (protocolTypes (changeProtocol p checked prev))
       = includes q (protocolTypes prev)) /\
  (openaiApiKey (changeProtocol p checked prev) = openaiApiKey prev /\
   mcpName (changeProtocol p checked prev) = mcpName prev /\
   description (changeProtocol p checked prev) = description prev /\
   version (changeProtocol p checked prev) = version prev /\
   author (changeProtocol p checked prev) = author prev /\
   baseUrl (changeProtocol p checked prev) = baseUrl prev) /\
  (includes p (protocolTypes prev) = false ->
   changeProtocol p false (changeProtocol p true prev) = prev).
Proof.
  assert (Hpp : protocol_eqb p p = true) by now apply protocol_eqb_eq.
  split; [|split; [|split]].
  - destruct checked; simpl.
    + rewrite includes_app. simpl. rewrite Hpp. now rewrite orb_true_r.
    + rewrite includes_filter, Hpp. apply andb_false_r.
  - intros q Hq.
    assert (Hqp : protocol_eqb q p = false).
    { destruct (protocol_eqb q p) eqn:E; [|reflexivity].
      apply protocol_eqb_eq in E. contradiction. }
    destruct checked; simpl.
    + rewrite includes_app. simpl. rewrite Hqp. now rewrite !orb_false_r.
    + rewrite includes_filter, Hqp. apply andb_true_r.
  - repeat split.
  - intro Habs. destruct prev as [k n l d v a b]. simpl in Habs.
    unfold changeProtocol, spread. simpl.
    rewrite filter_app. simpl. rewrite Hpp. simpl.
    rewrite app_nil_r. now rewrite (filter_absent p l Habs).
Qed.

End Form.

Lemma buttons_enabled_witness :
  let s := App.run App.initial
             [App.SwitchTab App.config_tab; App.ChangeProtocol Store.stdio false] in
  ConfigForm.save_disabled (App.form s) (App.store s) = true /\
  ConfigForm.reset_disabled (App.form s) (App.store s) = false.
Proof.
  cbv zeta. split; [reflexivity|].
  apply (proj2 (buttons_enabled _ _)). vm_compute. discriminate.
Defined.

Lemma protocol_box_witness :
  ConfigForm.changeProtocol Store.http false
    (ConfigForm.changeProtocol Store.http true Store.defaultConfig)
  = Store.defaultConfig.
Proof.
  apply (proj2 (proj2 (proj2 (protocol_box Store.http true Store.defaultConfig)))).
  reflexivity.
Defined.

(** ** The application: when the stored configuration changes *)

Section Saving.

Import Store.

(** X13: the stored configuration changes through an enabled Save on the
    Config tab and through nothing else; it then becomes the edited
    configuration.  Typing in the form, switching tabs, loading and
    generating, testing and reloading the page all leave it as it is. *)
Theorem config_changes_only_on_save (a : App.action) (s : App.State) :
  config (App.store (fst (App.step a s))) = config (App.store s) \/
  (a = App.ClickSave /\
   App.activeTab s = App.config_tab /\
   ConfigForm.save_disabled (App.form s) (App.store s) = false /\
   config (App.store (fst (App.step a s))) = ConfigForm.tempConfig (App.form s)).
Proof.
  unfold App.step.
  destruct a; simpl;
    try (left; destruct (App.activeTab s); reflexivity).
  - left. destruct (App.tab_eqb t (App.activeTab s)); reflexivity.
  - destruct (App.activeTab s) eqn:Etab; simpl; try (left; reflexivity).
    destruct (ConfigForm.save_disabled (App.form s) (App.store s)) eqn:E;
      [left; reflexivity|].
    right. simpl. rewrite spread_whole. repeat split.
  - left. destruct (App.activeTab s); simpl; try reflexivity.
    destruct (ConfigForm.reset_disabled (App.form s) (App.store s)); reflexivity.
  - left. destruct (App.activeTab s); simpl; try reflexivity.
    destruct (Generator.parse_disabled (App.generator s)); [reflexivity|].
    destruct (Generator.parseApiSpec parsed (App.generator s)). reflexivity.
  - left. destruct (App.activeTab s); simpl; try reflexivity.
    destruct (Generator.generate_disabled (App.generator s) (App.store s)); [reflexivity|].
    pose proof (handleGenerate_config generateMCP (App.generator s) (App.store s)) as Hc.
    destruct (Generator.handleGenerate generateMCP (App.generator s) (App.store s)).
    exact Hc.
Qed.

End Saving.

(** ** The status light and the test run *)

Section Testing.

Import Tester TesterForm Description.

Variable fetch : value -> fetched.

(** X14: [checkMcpStatus] fetches at most one url, and only a truthy one;
    when it ends in [unknown] it has fetched nothing, and on text made of
    white space only it does not even look at the parsed value. *)
Theorem status_fetches_once (parsed : completion value) (configText : string) :
  let r := checkMcpStatus fetch parsed configText in
  List.length (snd r) <= 1 /\
  (fst r = unknown -> snd r = []) /\
  (forall url, In url (snd r) ->
     truthy url = true /\ (fst r = active <-> fetch url = Response true)) /\
  (all_chars isWhiteSpace configText = true -> r = (unknown, [])).
Proof.
  assert (Hnone : forall (st : status) (b : bool),
             (b = true -> st = unknown) ->
             List.length (snd (st, @nil value)) <= 1 /\
             (fst (st, @nil value) = unknown -> snd (st, @nil value) = []) /\
             (forall url, In url (snd (st, @nil value)) ->
                truthy url = true /\
                (fst (st, @nil value) = active <-> fetch url = Response true)) /\
             (b = true -> (st, @nil value) = (unknown, []))).
  { intros st b Hb. simpl. split; [lia|]. split; [reflexivity|].
    split; [intros u []|]. intro H. now rewrite (Hb H). }
  unfold checkMcpStatus. rewrite trim_eqb_blank.
  destruct (all_chars isWhiteSpace configText) eqn:Eblank.
  { apply Hnone. reflexivity. }
  destruct parsed as [config|e]; simpl; [|apply Hnone; discriminate].
  destruct (get config "mcpServers") as [m|e]; simpl; [|apply Hnone; discriminate].
  destruct (entries (or m (Object []))) as [[|[k sc] rest]|e]; simpl;
    try (apply Hnone; discriminate).
  destruct (get sc "url") as [url|e]; simpl; [|apply Hnone; discriminate].
  destruct (truthy url) eqn:Ht; simpl; [|apply Hnone; discriminate].
  destruct (fetch url) as [[|]|] eqn:Hf; simpl;
    (split; [lia|]); (split; [discriminate|]); (split; [|discriminate]);
    intros u [<-|[]]; (split; [exact Ht|]); rewrite Hf;
    split; intro H; try reflexivity; discriminate H.
Qed.

(** X15: two configurations with the same first server give the same
    status and the same fetch, whatever else they list. *)
Theorem status_ignores_other_servers (c1 c2 sc : value) (t1 t2 : string) :
  trim t1 <> "" -> trim t2 <> "" ->
  first_entry c1 sc -> first_entry c2 sc ->
  checkMcpStatus fetch (Normal c1) t1 = checkMcpStatus fetch (Normal c2) t2.
Proof.
  intros H1 H2 [m1 k1 r1 Hm1 He1] [m2 k2 r2 Hm2 He2].
  unfold checkMcpStatus.
  apply String.eqb_neq in H1, H2. rewrite H1, H2. simpl.
  rewrite Hm1, Hm2. simpl. rewrite He1, He2. reflexivity.
Qed.

Variable testMCP : Api.TestRequest -> Api.settled Store.TestResponse.

(** X16: [handleTest] never touches the configuration or the generator's
    fields of the store, and leaves [isTesting] false once it has started;
    it calls [testMCP] at most on text that parses, with the parsed value
    and the prompt; and the stored test result changes only when that call
    is fulfilled: blank input, text that does not parse and a rejected call
    all keep the result of the previous test. *)
Theorem test_store_frame (parsed : parsed_text) (mcpConfig prompt : string)
    (store : Store.AppState) :
  let store' := fst (handleTest testMCP parsed mcpConfig prompt store) in
  let calls := snd (handleTest testMCP parsed mcpConfig prompt store) in
  Store.config store' = Store.config store /\
  Store.isGenerating store' = Store.isGenerating store /\
  Store.generationResult store' = Store.generationResult store /\
  (all_chars isWhiteSpace mcpConfig = true \/ all_chars isWhiteSpace prompt = true ->
   store' = store /\ forall req, ~ In (TestMCP req) calls) /\
  (all_chars isWhiteSpace mcpConfig = false ->
   all_chars isWhiteSpace prompt = false ->
   Store.isTesting store' = false) /\
  (forall req, In (TestMCP req) calls ->
     exists config,
       parsed = Parsed config /\
       req = {| Api.mcp_config := config; Api.prompt := prompt |}) /\
  (Store.testResult store' = Store.testResult store \/
   exists config result,
     parsed = Parsed config /\
     testMCP {| Api.mcp_config := config; Api.prompt := prompt |}
       = Api.Fulfilled result /\
     Store.testResult store' = Some result).
Proof.
  unfold handleTest. rewrite !trim_eqb_blank.
  destruct (all_chars isWhiteSpace mcpConfig); simpl.
  { split; [|split; [|split; [|split; [|split; [|split]]]]]; try reflexivity.
    - intros _. split; [reflexivity|]. intros req [H|[]]. discriminate H.
    - intro H. discriminate H.
    - intros req [H|[]]. discriminate H.
    - now left. }
  destruct (all_chars isWhiteSpace prompt); simpl.
  { split; [|split; [|split; [|split; [|split; [|split]]]]]; try reflexivity.
    - intros _. split; [reflexivity|]. intros req [H|[]]. discriminate H.
    - intros _ H. discriminate H.
    - intros req [H|[]]. discriminate H.
    - now left. }
  destruct parsed as [config|message]; simpl.
  - destruct (testMCP _) as [result|message] eqn:E; simpl;
      (split; [|split; [|split; [|split; [|split; [|split]]]]]); try reflexivity.
    + intros [H|H]; discriminate H.
    + intros req [H|[]]. injection H as <-. exists config. now split.
    + right. exists config, result. split; [reflexivity|]. now split.
    + intros [H|H]; discriminate H.
    + intros req [H|[H|[H|[]]]]; try discriminate H.
      injection H as <-. exists config. now split.
    + now left.
  - split; [|split; [|split; [|split; [|split; [|split]]]]]; try reflexivity.
    + intros [H|H]; discriminate H.
    + intros req [H|[H|[]]]; discriminate H.
    + now left.
Qed.

End Testing.

Lemma status_fetches_once_witness :
  Tester.checkMcpStatus Examples.everything_is_up (Normal Examples.two_servers)
    "  " = (Tester.unknown, []).
Proof.
  pose proof (status_fetches_once Examples.everything_is_up
                (Normal Examples.two_servers) "  ") as H.
  cbv zeta in H. destruct H as (_ & _ & _ & H). now apply H.
Defined.

Lemma status_ignores_other_servers_witness :
  Tester.checkMcpStatus Examples.second_is_up (Normal Examples.two_servers) "a"
  = Tester.checkMcpStatus Examples.second_is_up
      (Normal (Object [("mcpServers",
         Object [("only", Object [("url", Str "http://localhost:8001/mcp")])])]))
      "b".
Proof.
  apply (status_ignores_other_servers Examples.second_is_up _ _
           (Object [("url", Str "http://localhost:8001/mcp")])).
  - vm_compute. discriminate.
  - vm_compute. discriminate.
  - eapply Description.first_entry_intro; reflexivity.
  - eapply Description.first_entry_intro; reflexivity.
Defined.

Lemma test_store_frame_witness :
  let store := Store.setTestResult (Some {| Store.result := Null |})
                 Store.initialState in
  let testMCP := fun _ : Api.TestRequest =>
                   @Api.Rejected Store.TestResponse "boom" in
  Store.isTesting
    (fst (TesterForm.handleTest testMCP (TesterForm.Unparsable "Unexpected token")
            "{" "list pets" store)) = false /\
  Store.testResult
    (fst (TesterForm.handleTest testMCP (TesterForm.Unparsable "Unexpected token")
            "{" "list pets" store)) = Some {| Store.result := Null |}.
Proof.
  cbv zeta.
  pose proof (test_store_frame
                (fun _ : Api.TestRequest => @Api.Rejected Store.TestResponse "boom")
                (TesterForm.Unparsable "Unexpected token") "{" "list pets"
                (Store.setTestResult (Some {| Store.result := Null |})
                   Store.initialState)) as H.
  cbv zeta in H. destruct H as (_ & _ & _ & _ & Htesting & _ & _).
  split; [exact (Htesting eq_refl eq_refl)|reflexivity].
Defined.

(** ** Decoding any text *)

Section Decoding.

Import Api Description Encoding.

Lemma store_past_end (k : nat) (v : Z) (bytes : list Z) :
  List.length bytes <= k -> store k v bytes = bytes.
Proof.
  revert k. induction bytes as [|b rest IH]; intros [|k] H; simpl in *;
    try reflexivity; [lia|].
  rewrite IH; [reflexivity|lia].
Qed.

Lemma hex_bytes_odd (zipData : string) (n : nat) :
  String.length zipData = S (2 * n) ->
  hex_bytes zipData =
    map (fun k => ToUint8 (parseInt (substr2 (2 * k) zipData) 16)) (seq 0 n).
Proof.
  intro Hlen. unfold hex_bytes, loop_indices. rewrite Hlen.
  change (Nat.div2 (S (S (2 * n)))) with (S (Nat.div2 (2 * n))).
  rewrite Nat.div2_double, Nat.div2_succ_double, seq_S, map_app, fold_left_app.
  pose proof (fill_in_order
                (fun i => ToUint8 (parseInt (substr2 i zipData) 16)) n 0 [] []
                eq_refl) as H.
  simpl app in H. rewrite !app_nil_r in H. rewrite H. simpl.
  rewrite Nat.add_0_r.
  replace (n + n) with (2 * n) by lia. rewrite Nat.div2_double.
  apply store_past_end. now rewrite length_map, length_seq.
Qed.

(** Whatever the text, byte [k] is read from the two characters at [2k]. *)
Lemma hex_bytes_any (zipData : string) :
  hex_bytes zipData =
    map (fun k => ToUint8 (parseInt (substr2 (2 * k) zipData) 16))
        (seq 0 (Nat.div2 (String.length zipData))).
Proof.
  destruct (Nat.Even_or_Odd (String.length zipData)) as [[n Hn]|[n Hn]].
  - rewrite Hn, Nat.div2_double. now apply hex_bytes_even.
  - replace (2 * n + 1) with (S (2 * n)) in Hn by lia.
    rewrite Hn, Nat.div2_succ_double. now apply hex_bytes_odd.
Qed.

Lemma ToUint8_byte (x : option Z) : is_byte (ToUint8 x).
Proof.
  unfold is_byte, ToUint8. destruct x as [z|]; [|lia].
  apply Z.mod_pos_bound. lia.
Qed.

Lemma hex_bytes_pair (c1 c2 : ascii) (rest : string) :
  hex_bytes (String c1 (String c2 rest)) =
    ToUint8 (parseInt (String c1 (String c2 EmptyString)) 16) :: hex_bytes rest.
Proof.
  rewrite !hex_bytes_any. cbn [String.length Nat.div2 seq map].
  f_equal.
  - unfold substr2. simpl. now destruct rest.
  - rewrite <- seq_shift, map_map. apply map_ext. intro k.
    replace (2 * S k) with (S (S (2 * k))) by lia. reflexivity.
Qed.

(** X17: on any text at all [downloadZip] builds half as many bytes as the
    text has characters, rounded down, each between 0 and 255: the text is
    read two characters at a time from the left, and a last character
    without a partner is dropped. *)
Theorem decoding_shape (zipData filename : string) :
  let bytes := blobParts (href (downloadZip zipData filename)) in
  List.length bytes = Nat.div2 (String.length zipData) /\
  Forall is_byte bytes /\
  (forall c1 c2 rest,
     zipData = String c1 (String c2 rest) ->
     bytes = ToUint8 (parseInt (String c1 (String c2 EmptyString)) 16)
             :: hex_bytes rest) /\
  (forall c, zipData = String c EmptyString -> bytes = []) /\
  (forall text c,
     Nat.even (String.length text) = true ->
     zipData = text ++ String c EmptyString ->
     bytes = hex_bytes text).
Proof.
  cbn [downloadZip href blobParts].
  split; [|split; [|split; [|split]]].
  - now rewrite hex_bytes_any, length_map, length_seq.
  - rewrite hex_bytes_any. apply Forall_forall. intros b Hb.
    apply in_map_iff in Hb as (k & <- & _). apply ToUint8_byte.
  - intros c1 c2 rest ->. apply hex_bytes_pair.
  - intros c ->. now rewrite hex_bytes_any.
  - intros text c Heven ->.
    apply Nat.even_spec in Heven as [n Hn].
    revert text Hn. induction n as [|n IH]; intros text Hn.
    + destruct text; [|discriminate Hn]. simpl. now rewrite hex_bytes_any.
    + destruct text as [|c1 [|c2 rest]]; simpl in Hn; try lia.
      simpl. rewrite !hex_bytes_pair. f_equal. apply IH. lia.
Qed.

Lemma decoding_shape_witness :
  blobParts (href (downloadZip "504b0" default_filename)) = hex_bytes "504b".
Proof.
  pose proof (decoding_shape "504b0" default_filename) as H.
  cbv zeta in H. destruct H as (_ & _ & _ & _ & H).
  apply (H "504b" "0"%char); reflexivity.
Defined.

Lemma byte_round_trip_check :
  forallb
    (fun k =>
       let b := Z.of_nat k in
       (ToUint8 (parseInt (String (hex_digit (b / 16))
                             (String (hex_digit (b mod 16)) EmptyString)) 16)
        =? b)%Z
       && isHexDigit (hex_digit (b / 16)) && isHexDigit (hex_digit (b mod 16)))
    (seq 0 256) = true.
Proof. vm_compute. reflexivity. Qed.

Lemma byte_round_trip (b : Z) :
  is_byte b ->
  ToUint8 (parseInt (String (hex_digit (b / 16))
                       (String (hex_digit (b mod 16)) EmptyString)) 16) = b /\
  isHexDigit (hex_digit (b / 16)) = true /\
  isHexDigit (hex_digit (b mod 16)) = true.
Proof.
  intros [Hlo Hhi].
  pose proof byte_round_trip_check as H.
  rewrite forallb_forall in H.
  specialize (H (Z.to_nat b)).
  rewrite Z2Nat.id in H by lia.
  assert (Hin : In (Z.to_nat b) (seq 0 256)) by (apply in_seq; lia).
  specialize (H Hin). cbv zeta in H.
  apply andb_prop in H as [H H3]. apply andb_prop in H as [H1 H2].
  apply Z.eqb_eq in H1. now repeat split.
Qed.

(** X18: decoding undoes the two-digit hexadecimal encoding: the text of a
    sequence of bytes consists of hexadecimal digits, has twice its
    length, and is decoded by [downloadZip] to the same bytes. *)
Theorem decode_encode (bytes : list Z) (filename : string) :
  Forall is_byte bytes ->
  all_chars isHexDigit (to_hex bytes) = true /\
  String.length (to_hex bytes) = 2 * List.length bytes /\
  blobParts (href (downloadZip (to_hex bytes) filename)) = bytes.
Proof.
  cbn [downloadZip href blobParts].
  induction 1 as [|b rest Hb _ IH]; simpl.
  - now repeat split.
  - destruct IH as (Hhex & Hlen & Hdec).
    destruct (byte_round_trip b Hb) as (Hrt & H1 & H2).
    split; [now rewrite H1, H2, Hhex|].
    split; [rewrite Hlen; lia|].
    now rewrite hex_bytes_pair, Hrt, Hdec.
Qed.

Lemma decode_encode_witness :
  blobParts (href (downloadZip (to_hex [80; 75; 3; 4; 255; 0]%Z) default_filename))
  = [80; 75; 3; 4; 255; 0]%Z.
Proof.
  apply (decode_encode [80; 75; 3; 4; 255; 0]%Z default_filename).
  repeat constructor; unfold is_byte; lia.
Defined.

Lemma not_a_number (c : ascii) (rest : string) :
  isHexDigit c = false ->
  isWhiteSpace c = false ->
  c <> "+"%char -> c <> "-"%char ->
  parseInt (String c rest) 16 = None.
Proof.
  destruct c as [[] [] [] [] [] [] [] []]; intros H1 H2 H3 H4;
    try discriminate H1; try discriminate H2;
    try (now contradiction H3); try (now contradiction H4);
    reflexivity.
Qed.

Lemma substr2_head (s : string) :
  forall i c, String.get i s = Some c ->
    exists rest, substr2 i s = String c rest.
Proof.
  unfold substr2.
  induction s as [|c' s IH]; intros [|i] c H; simpl in *; try discriminate.
  - injection H as ->. eexists. reflexivity.
  - now apply IH.
Qed.

(** X19: a pair that does not begin with a hexadecimal digit, white space
    or a sign is not reported: it silently becomes the byte 0. *)
Theorem garbage_becomes_zero (zipData filename : string) (i : nat) (c : ascii) :
  i < Nat.div2 (String.length zipData) ->
  String.get (2 * i) zipData = Some c ->
  isHexDigit c = false ->
  isWhiteSpace c = false ->
  c <> "+"%char -> c <> "-"%char ->
  nth_error (blobParts (href (downloadZip zipData filename))) i = Some 0%Z.
Proof.
  intros Hi Hc H1 H2 H3 H4. cbn [downloadZip href blobParts].
  rewrite hex_bytes_any, nth_error_map, nth_error_seq.
  replace (i <? Nat.div2 (String.length zipData))%nat with true
    by (symmetry; now apply Nat.ltb_lt).
  simpl. rewrite Nat.add_0_r.
  replace (i + i) with (2 * i) by lia.
  destruct (substr2_head zipData _ _ Hc) as [rest ->].
  now rewrite (not_a_number c rest H1 H2 H3 H4).
Qed.

Lemma garbage_becomes_zero_witness :
  nth_error (blobParts (href (downloadZip "50zz4b" default_filename))) 1
  = Some 0%Z.
Proof.
  apply (garbage_becomes_zero "50zz4b" default_filename 1 "z"%char).
  - simpl. lia.
  - reflexivity.
  - reflexivity.
  - reflexivity.
  - discriminate.
  - discriminate.
Defined.

End Decoding.

(** ** Generating from the application *)

Section Requests.

Import Description.

(** X20: a generate request leaves the application only through the
    Generate button on the Generator tab, only while no generation is under
    way and both texts are filled in, and it carries the configuration that
    is stored: edits in the configuration form that were not saved are not
    in it. *)
Theorem requests_use_stored_config (a : App.action) (s : App.State)
    (req : Api.GenerateRequest) :
  In (GenerateMCP req) (snd (App.step a s)) ->
  (exists generateMCP, a = App.ClickGenerate generateMCP) /\
  App.activeTab s = App.generator_tab /\
  Store.isGenerating (App.store s) = false /\
  all_chars isWhiteSpace (Generator.apiSpec (App.generator s)) = false /\
  all_chars isWhiteSpace (Generator.systemPrompt (App.generator s)) = false /\
  Api.config req =
    {| Api.openai_api_key := Store.openaiApiKey (Store.config (App.store s));
       Api.mcp_name := Store.mcpName (Store.config (App.store s));
       Api.protocol_types := Store.protocolTypes (Store.config (App.store s));
       Api.description := Store.description (Store.config (App.store s));
       Api.version := Store.version (Store.config (App.store s));
       Api.author := Store.author (Store.config (App.store s)) |}.
Proof.
  intro Hin. pose proof (step_request a s req Hin) as Hreq.
  unfold App.step in Hin.
  destruct a; simpl in Hin;
    try (destruct (App.activeTab s); simpl in Hin; contradiction).
  - destruct (App.tab_eqb t (App.activeTab s)); contradiction.
  - destruct (App.activeTab s); simpl in Hin; try contradiction.
    destruct (ConfigForm.save_disabled (App.form s) (App.store s)); simpl in Hin;
      [contradiction|]. destruct Hin as [H|[]]. discriminate H.
  - destruct (App.activeTab s); simpl in Hin; try contradiction.
    destruct (ConfigForm.reset_disabled (App.form s) (App.store s)); contradiction.
  - destruct (App.activeTab s); simpl in Hin; try contradiction.
    unfold Generator.parseApiSpec in Hin.
    destruct (Generator.parse_disabled (App.generator s)); [contradiction|].
    destruct (trim (Generator.apiSpec (App.generator s)) =? ""); simpl in Hin.
    + destruct Hin as [H|[]]. discriminate H.
    + destruct (bind parsed _); simpl in Hin; [contradiction|].
      destruct Hin as [H|[]]. discriminate H.
  - destruct (App.activeTab s) eqn:Etab; simpl in Hin; try contradiction.
    unfold Generator.generate_disabled in Hin.
    rewrite !trim_eqb_blank in Hin.
    destruct (Store.isGenerating (App.store s)); simpl in Hin; [contradiction|].
    destruct (all_chars isWhiteSpace (Generator.apiSpec (App.generator s)));
      simpl in Hin; [contradiction|].
    destruct (all_chars isWhiteSpace (Generator.systemPrompt (App.generator s)));
      simpl in Hin; [contradiction|].
    subst req. repeat split. now exists generateMCP.
Qed.

(** X21: a description that loads without any operation shows an empty
    selection, and from then on every attempt to generate is refused with
    the request to select a tool; the same form, before loading, would have
    sent its request. *)
Theorem empty_description_blocks_generation
    (generateMCP : Api.GenerateRequest -> Api.settled Api.GenerateResponse)
    (spec : value) (st : Generator.State) (store : Store.AppState) :
  Generator.parseTools spec = Normal [] ->
  all_chars isWhiteSpace (Generator.apiSpec st) = false ->
  all_chars isWhiteSpace (Generator.systemPrompt st) = false ->
  let loaded := fst (Generator.parseApiSpec (Normal spec) st) in
  Generator.handleGenerate generateMCP loaded store =
    (store, [Alert "Please select at least one tool to generate"]) /\
  (Generator.showToolSelection st = false ->
   In (GenerateMCP (Generator.request st (Store.config store)))
      (snd (Generator.handleGenerate generateMCP st store))).
Proof.
  intros Hempty Hspec Hprompt loaded. split.
  - subst loaded. unfold Generator.parseApiSpec.
    rewrite trim_eqb_blank, Hspec. simpl. rewrite Hempty.
    unfold Generator.handleGenerate. simpl.
    now rewrite !trim_eqb_blank, Hspec, Hprompt.
  - intro Hshow. apply handleGenerate_issues.
    repeat split; try assumption. intro H. congruence.
Qed.

End Requests.

Lemma requests_use_stored_config_witness :
  let s := App.run App.initial
             [App.SwitchTab App.config_tab;
              App.ChangeMcpName "Unsaved name";
              App.SwitchTab App.generator_tab;
              App.EditApiSpec "{ }";
              App.EditSystemPrompt "You are a pet shop assistant."] in
  exists req,
    In (GenerateMCP req) (snd (App.step (App.ClickGenerate Examples.always_ok) s)) /\
    Api.mcp_name (Api.config req) = "Generated MCP Server".
Proof.
  cbv zeta. eexists. split; [left; reflexivity|].
  match goal with
  | |- Api.mcp_name (Api.config ?r) = _ =>
      assert (Hin : In (GenerateMCP r)
                       (snd (App.step (App.ClickGenerate Examples.always_ok)
                               (App.run App.initial
                                  [App.SwitchTab App.config_tab;
                                   App.ChangeMcpName "Unsaved name";
                                   App.SwitchTab App.generator_tab;
                                   App.EditApiSpec "{ }";
                                   App.EditSystemPrompt
                                     "You are a pet shop assistant."]))))
        by (left; reflexivity);
      destruct (requests_use_stored_config _ _ r Hin) as (_ & _ & _ & _ & _ & Hc);
      rewrite Hc
  end.
  reflexivity.
Defined.

Lemma empty_description_blocks_generation_witness :
  Generator.handleGenerate Examples.always_ok
    (fst (Generator.parseApiSpec (Normal MoreExamples.no_paths_spec)
            MoreExamples.filled_in))
    Store.initialState =
    (Store.initialState, [Alert "Please select at least one tool to generate"]) /\
  In (GenerateMCP (Generator.request MoreExamples.filled_in
                     (Store.config Store.initialState)))
     (snd (Generator.handleGenerate Examples.always_ok MoreExamples.filled_in
             Store.initialState)).
Proof.
  pose proof (empty_description_blocks_generation Examples.always_ok
                MoreExamples.no_paths_spec MoreExamples.filled_in
                Store.initialState eq_refl eq_refl eq_refl) as H.
  cbv zeta in H. destruct H as [H1 H2].
  split; [exact H1|]. apply H2. reflexivity.
Defined.
